(** * chainlit_foundry_chat: a chat front-end for a remote hosted agent

    A shallow embedding of [src/chainlit_foundry_chat.py]: the response
    formatter, the response extractor, the start-up configuration check,
    the poll loop and the message handler, with the properties that the
    design document states about them.

    Python values are modelled as follows.
    - [str] is a sequence of Unicode code points: [pystr := list N].
    - [None]-or-value is [option].
    - objects whose attributes may be missing ([hasattr]) carry an [option]
      per attribute.
    - what the client library hands over and the source does not declare
      is taken as it behaves here: the answer of the convenience call may
      be a [str] or another object, and a run status has the string it
      compares equal to and the text an f-string prints for it.
    - a [dict] is a [gmap].
    - the remote agent service, the chat UI and the clock are a world that
      is threaded through the code; a raised exception is an outcome. *)

From Stdlib Require Import ZArith NArith List String Ascii Lia.
From stdpp Require Import base option list gmap pretty.

Open Scope Z_scope.

(** ** Python strings *)

Definition pystr := list N.

(** A literal whose characters are all ASCII. *)
Fixpoint lit (s : string) : pystr :=
  match s with
  | EmptyString => []
  | String c s' => N_of_ascii c :: lit s'
  end.

(** U+1F916, U+2705, U+274C, U+26A0 U+FE0F, U+1F914, U+2753: the pictographs
    of the fixed notices. *)
Definition robot_face : pystr := [129302%N].
Definition check_mark : pystr := [9989%N].
Definition cross_mark : pystr := [10060%N].
Definition warning_sign : pystr := [9888%N; 65039%N].
Definition thinking_face : pystr := [129300%N].
Definition question_mark : pystr := [10067%N].

Definition nl : pystr := [10%N].

(** [str.isspace] on one character: the code points Python treats as
    whitespace. *)
Definition isspace (c : N) : bool :=
  ((9 <=? c) && (c <=? 13) || (28 <=? c) && (c <=? 32)
   || (c =? 133) || (c =? 160) || (c =? 5760)
   || (8192 <=? c) && (c <=? 8202)
   || (c =? 8232) || (c =? 8233) || (c =? 8239) || (c =? 8287)
   || (c =? 12288))%N.

Fixpoint lstrip (s : pystr) : pystr :=
  match s with
  | [] => []
  | c :: s' => if isspace c then lstrip s' else s
  end.

Definition rstrip (s : pystr) : pystr := rev (lstrip (rev s)).

(** [s.strip()] *)
Definition strip (s : pystr) : pystr := rstrip (lstrip s).

(** [s.startswith(p)] *)
Fixpoint startswith (s p : pystr) {struct p} : bool :=
  match p, s with
  | [], _ => true
  | _ :: _, [] => false
  | a :: p', b :: s' => (a =? b)%N && startswith s' p'
  end.

(** [p in s] *)
Fixpoint contains (p s : pystr) : bool :=
  startswith s p ||
  match s with
  | [] => false
  | _ :: s' => contains p s'
  end.

(** Truth value of a [str] or [None]: [None] and the empty string are
    false. *)
Definition truthy (x : option pystr) : bool :=
  match x with
  | Some (_ :: _) => true
  | _ => false
  end.

(** ** The response formatter *)

Definition agent_response_heading : pystr :=
  lit "## " ++ robot_face ++ lit " Agent Response" ++ nl ++ nl.

Definition no_content_notice : pystr :=
  agent_response_heading ++ lit "No response content available.".

(** The test for a code block or technical response. *)
Definition looks_like_code (response_text : pystr) : bool :=
  contains (lit "```") response_text
  || startswith response_text (lit "def ")
  || startswith response_text (lit "class ").

Definition format_agent_response (response_text : option pystr) : pystr :=
  match response_text with
  | None | Some [] => no_content_notice
  | Some response_text =>
      let response_text := strip response_text in
      if negb (startswith response_text (lit "#")) then
        if looks_like_code response_text
        then agent_response_heading ++ response_text
        else agent_response_heading ++ response_text
      else response_text
  end.

(** ** Exceptions *)

(** The exceptions the program raises or meets. [RemoteError] stands for
    whatever the remote client raises; [exn_str] is [str(e)]. *)
Inductive exn :=
| TimeoutError (msg : pystr)
| ValueError (msg : pystr)
| AttributeError (attr : pystr)
| RemoteError (msg : pystr).

Definition exn_str (e : exn) : pystr :=
  match e with
  | TimeoutError msg | ValueError msg | AttributeError msg | RemoteError msg => msg
  end.

Inductive outcome (A : Type) :=
| Ret (a : A)
| Raise (e : exn).
Arguments Ret {A} a.
Arguments Raise {A} e.

#[global] Instance outcome_ret : MRet outcome := @Ret.
#[global] Instance outcome_bind : MBind outcome := fun A B f x =>
  match x with
  | Ret a => f a
  | Raise e => Raise e
  end.

(** [try: body except Exception: handler] for code without effects. *)
Definition try_except_pure {A} (body : outcome A) (handler : exn -> outcome A) : outcome A :=
  match body with
  | Ret a => Ret a
  | Raise e => handler e
  end.

(** ** What the convenience call answers *)

(** The value [get_last_message_text_by_role] answers: [None], a [str], or
    an object that is not a [str] (the client library's text-content
    object is one). Of such an object only its truth value matters here:
    it has no [strip]. *)
Inductive text_answer :=
| AnswerNone
| AnswerStr (s : pystr)
| AnswerObject (truth : bool).

(** Truth value of an answer, as [if response_text:] takes it. *)
Definition truthy_answer (v : text_answer) : bool :=
  match v with
  | AnswerNone => false
  | AnswerStr s => truthy (Some s)
  | AnswerObject truth => truth
  end.

(** [format_agent_response(response_text)] on an answer: on an object that
    is true and is no [str], [response_text.strip()] raises. *)
Definition format_answer (v : text_answer) : outcome pystr :=
  match v with
  | AnswerNone => Ret (format_agent_response None)
  | AnswerStr s => Ret (format_agent_response (Some s))
  | AnswerObject truth =>
      if negb truth then Ret no_content_notice
      else Raise (AttributeError (lit "strip"))
  end.

Definition answer_of_text (x : option pystr) : text_answer :=
  match x with
  | Some s => AnswerStr s
  | None => AnswerNone
  end.

(** ** Start-up configuration check *)

(** [all([...])] over the truth values of the three settings read by
    [os.getenv]. *)
Definition all (l : list (option pystr)) : bool := forallb truthy l.

Definition unlines (ls : list pystr) : pystr :=
  match ls with
  | [] => []
  | l :: ls' => l ++ concat (map (fun x => nl ++ x) ls')
  end.

Definition missing_environment_msg : pystr :=
  unlines
    [ lit "Missing required environment variables. Please ensure you have set:";
      lit "- AZURE_AI_FOUNDRY_ENDPOINT";
      lit "- AZURE_AI_FOUNDRY_API_KEY";
      lit "- AZURE_AI_FOUNDRY_AGENT_ID" ].

Definition validate_environment
    (AZURE_AI_FOUNDRY_ENDPOINT AZURE_AI_FOUNDRY_API_KEY
     AZURE_AI_FOUNDRY_AGENT_ID : option pystr) : outcome unit :=
  if negb (all [AZURE_AI_FOUNDRY_ENDPOINT; AZURE_AI_FOUNDRY_API_KEY;
                AZURE_AI_FOUNDRY_AGENT_ID])
  then Raise (ValueError missing_environment_msg)
  else Ret tt.

(** ** Remote records *)

(** [content_item.text]: an object that may or may not have a [value]. *)
Module TextObj.
Record t := mk { value : option pystr }.
End TextObj.

(** One content part of a message. [None] is a missing attribute. *)
Module ContentItem.
Record t := mk { text : option TextObj.t; type : option pystr }.
End ContentItem.

Module Message.
Record t := mk {
  role : pystr;
  created_at : Z;
  content : option (list ContentItem.t)
}.
End Message.

(** [status] is the string that [run.status] compares equal to, in [==]
    and [in]. [formatted_status] is what an f-string prints for
    [run.status]: the same string when the status is a plain [str], the
    name of the member, such as RunStatus.EXPIRED, when it is a member of
    an enumeration derived from [str] (Python 3.11 and later).
    [last_error]: the outer [None] is a missing attribute, the inner one
    the value [None]; otherwise a mapping. *)
Module Run.
Record t := mk {
  id : pystr;
  status : pystr;
  formatted_status : pystr;
  created_at : Z;
  last_error : option (option (gmap pystr pystr))
}.
End Run.

(** ** The response extractor *)

Definition getattr {A} (name : string) (a : option A) : outcome A :=
  match a with
  | Some x => Ret x
  | None => Raise (AttributeError (lit name))
  end.

Definition hasattr {A} (a : option A) : bool :=
  match a with
  | Some _ => true
  | None => false
  end.

Definition str_eqb (a b : pystr) : bool := bool_decide (a = b).

(** [content_item.text.value] *)
Definition text_value (content_item : ContentItem.t) : outcome pystr :=
  text ← getattr "text" (ContentItem.text content_item);
  getattr "value" (TextObj.value text).

(** [hasattr(content_item, 'text') and hasattr(content_item.text, 'value')] *)
Definition has_text_value (content_item : ContentItem.t) : bool :=
  match ContentItem.text content_item with
  | Some text => hasattr (TextObj.value text)
  | None => false
  end.

(** [hasattr(content_item, 'type') and content_item.type == 'text'] *)
Definition is_text_typed (content_item : ContentItem.t) : bool :=
  match ContentItem.type content_item with
  | Some ty => str_eqb ty (lit "text")
  | None => false
  end.

(** The [for] loop of [extract_message_content]: [Ret (Some v)] is a
    [return v] from inside the loop, [Ret None] the loop running out. *)
Fixpoint scan_content (items : list ContentItem.t) : outcome (option pystr) :=
  match items with
  | [] => Ret None
  | content_item :: rest =>
      if has_text_value content_item then
        v ← text_value content_item; Ret (Some v)
      else if is_text_typed content_item then
        v ← text_value content_item; Ret (Some v)
      else scan_content rest
  end.

Definition extract_message_content (message : Message.t) : outcome (option pystr) :=
  try_except_pure
    (match Message.content message with
     | Some (item :: items) => scan_content (item :: items)
     | _ => Ret None
     end)
    (fun _ => Ret None).

(** ** The world: session store, chat stream, clock and remote service *)

(** The remote operations the program issues, in the order issued. *)
Inductive call :=
| ThreadsCreate
| MessagesCreate (thread_id role content : pystr)
| RunsCreate (thread_id agent_id : pystr)
| RunsGet (thread_id run_id : pystr)
| RunsCancel (thread_id run_id : pystr)
| GetLastMessageTextByRole (thread_id role : pystr)
| MessagesList (thread_id : pystr).

Record world := mkWorld {
  user_session : gmap pystr pystr;   (* cl.user_session *)
  sent : list pystr;                 (* contents sent with cl.Message(...).send() *)
  step_output : option pystr;        (* step.output *)
  now : Z;                           (* the reading time.time() would give *)
  polls : nat;                       (* number of runs.get calls so far *)
  calls : list call                  (* remote operations issued so far *)
}.

(** What a remote call answers: a value, or an exception. *)
Inductive reply (A : Type) :=
| Ok (a : A)
| Fails (e : exn).
Arguments Ok {A} a.
Arguments Fails {A} e.

(** The remote agent service behind [project_client.agents]. The k-th
    status poll answers [runs_get k] and takes [get_latency k] time-units.
    Time is counted in whole time-units: a sleep advances the clock by its
    argument, a status poll by its latency, and nothing else takes time.
    The latency of a poll stands for all the time that passes beyond the
    one unit slept, a sleep that lasts longer included; the theorems
    below are stated for every latency, and the sample services say which
    latencies they have. *)
Record remote := mkRemote {
  threads_create : reply pystr;
  messages_create : pystr -> pystr -> pystr -> reply unit;
  runs_create : pystr -> pystr -> reply Run.t;
  runs_get : nat -> pystr -> pystr -> reply Run.t;
  get_latency : nat -> N;
  runs_cancel : pystr -> pystr -> reply unit;
  messages_get_last_message_text_by_role : pystr -> pystr -> reply text_answer;
  messages_list : pystr -> reply (list Message.t)
}.

(** Computations over the world. [None] is a loop cut off by its fuel; an
    exception keeps the effects made before it. *)
Definition M (A : Type) : Type := world -> option (outcome A * world).

#[global] Instance M_ret : MRet M := fun A a w => Some (Ret a, w).
#[global] Instance M_bind : MBind M := fun A B f m w =>
  match m w with
  | Some (Ret a, w') => f a w'
  | Some (Raise e, w') => Some (Raise e, w')
  | None => None
  end.

Definition raise {A} (e : exn) : M A := fun w => Some (Raise e, w).

Definition out_of_fuel {A} : M A := fun _ => None.

Definition lift {A} (x : outcome A) : M A := fun w => Some (x, w).

(** [try: body except Exception as e: handler e] *)
Definition try_except {A} (body : M A) (handler : exn -> M A) : M A := fun w =>
  match body w with
  | Some (Raise e, w') => handler e w'
  | r => r
  end.

Definition record_call (c : call) (w : world) : world :=
  mkWorld (user_session w) (sent w) (step_output w) (now w) (polls w) (calls w ++ [c]).

Definition remote_call {A} (c : call) (r : reply A) : M A := fun w =>
  Some (match r with Ok a => Ret a | Fails e => Raise e end, record_call c w).

(** [await cl.Message(content=content).send()] *)
Definition send (content : pystr) : M unit := fun w =>
  Some (Ret tt,
        mkWorld (user_session w) (sent w ++ [content]) (step_output w) (now w)
                (polls w) (calls w)).

(** [step.output = text] *)
Definition set_step_output (text : pystr) : M unit := fun w =>
  Some (Ret tt,
        mkWorld (user_session w) (sent w) (Some text) (now w) (polls w) (calls w)).

(** [cl.user_session.get(key)] and [cl.user_session.set(key, value)] *)
Definition user_session_get (key : pystr) : M (option pystr) := fun w =>
  Some (Ret (user_session w !! key), w).

Definition user_session_set (key value : pystr) : M unit := fun w =>
  Some (Ret tt,
        mkWorld (<[key := value]> (user_session w)) (sent w) (step_output w) (now w)
                (polls w) (calls w)).

(** [time.time()] *)
Definition time_time : M Z := fun w => Some (Ret (now w), w).

(** [await asyncio.sleep(seconds)] *)
Definition asyncio_sleep (seconds : Z) : M unit := fun w =>
  Some (Ret tt,
        mkWorld (user_session w) (sent w) (step_output w) (now w + seconds)
                (polls w) (calls w)).

Definition count_poll (latency : N) (w : world) : world :=
  mkWorld (user_session w) (sent w) (step_output w) (now w + Z.of_N latency)
          (S (polls w)) (calls w).

(** ** The notices shown in the chat stream *)

Definition code_fence : pystr := lit "```".

Definition welcome_message : pystr :=
  unlines
    [ lit "# " ++ robot_face ++ lit " Welcome to Azure AI Foundry Chat! ";
      [];
      lit "You're now connected to an intelligent AI agent powered by **Azure AI Foundry**. ";
      [];
      [];
      lit "## Getting Started";
      lit "Simply type your question or request below and I'll respond with helpful, detailed information.";
      [];
      lit "**Ready to chat? Ask me anything! " ++ [128640%N] ++ lit "**" ].

Definition connection_error_msg (e : pystr) : pystr :=
  unlines
    [ lit "# " ++ cross_mark ++ lit " Connection Error";
      [];
      lit "**Failed to initialize chat session**";
      [];
      code_fence;
      e;
      code_fence;
      [];
      lit "Please check your Azure AI Foundry configuration and try again." ].

Definition session_error_msg : pystr :=
  unlines
    [ lit "# " ++ warning_sign ++ lit " Session Error";
      [];
      lit "**Chat session not properly initialized**";
      [];
      lit "Please refresh the page and try again." ].

Definition response_ready : pystr := check_mark ++ lit " Response ready".

Definition no_response_msg : pystr :=
  unlines
    [ lit "## " ++ thinking_face ++ lit " No Response";
      [];
      lit "The agent processed your message but didn't provide a response. ";
      [];
      lit "**Please try:**";
      lit "- Rephrasing your question";
      lit "- Being more specific about what you need";
      lit "- Asking a different question" ].

Definition failed_msg (error_message : pystr) : pystr :=
  unlines
    [ lit "## " ++ cross_mark ++ lit " Processing Failed";
      [];
      lit "**The agent encountered an error while processing your message:**";
      [];
      code_fence;
      error_message;
      code_fence;
      [];
      lit "Please try rephrasing your question or ask something else." ].

Definition status_msg (status : pystr) : pystr :=
  unlines
    [ lit "## " ++ question_mark ++ lit " Unexpected Status";
      [];
      lit "**The agent run completed with status:** `" ++ status ++ lit "`";
      [];
      lit "This is unusual. Please try sending your message again." ].

Definition processing_error_msg (e : pystr) : pystr :=
  unlines
    [ lit "## " ++ cross_mark ++ lit " Processing Error";
      [];
      lit "**An error occurred while processing your message:**";
      [];
      code_fence;
      e;
      code_fence;
      [];
      lit "Please try again or rephrase your question." ].

(** [f"Agent response timed out after {max_wait_time} seconds"] *)
Definition timed_out_msg (max_wait_time : Z) : pystr :=
  lit "Agent response timed out after " ++ lit (pretty max_wait_time) ++ lit " seconds".

(** [error_details.get('message', 'Unknown error') if error_details else
    'Unknown error'], with [error_details = getattr(run, 'last_error', {})]. *)
Definition error_message_of (run : Run.t) : pystr :=
  let error_details : option (gmap pystr pystr) :=
    match Run.last_error run with
    | Some v => v
    | None => Some ∅
    end in
  match error_details with
  | Some d =>
      if bool_decide (d = ∅) then lit "Unknown error"
      else default (lit "Unknown error") (d !! lit "message")
  | None => lit "Unknown error"
  end.

(** [status in ["completed", "failed", "cancelled", "expired"]] *)
Definition terminal_statuses : list pystr :=
  [lit "completed"; lit "failed"; lit "cancelled"; lit "expired"].

Definition is_terminal (status : pystr) : bool :=
  existsb (str_eqb status) terminal_statuses.

(** ** The poll loop and the message handler *)

Section Program.

Variable project_client : remote.
Variable AZURE_AI_FOUNDRY_AGENT_ID : pystr.

Definition agents_threads_create : M pystr :=
  remote_call ThreadsCreate (threads_create project_client).

Definition agents_messages_create (thread_id role content : pystr) : M unit :=
  remote_call (MessagesCreate thread_id role content)
              (messages_create project_client thread_id role content).

Definition agents_runs_create (thread_id agent_id : pystr) : M Run.t :=
  remote_call (RunsCreate thread_id agent_id)
              (runs_create project_client thread_id agent_id).

Definition agents_runs_get (thread_id run_id : pystr) : M Run.t := fun w =>
  remote_call (RunsGet thread_id run_id)
              (runs_get project_client (polls w) thread_id run_id)
              (count_poll (get_latency project_client (polls w)) w).

Definition agents_runs_cancel (thread_id run_id : pystr) : M unit :=
  remote_call (RunsCancel thread_id run_id)
              (runs_cancel project_client thread_id run_id).

Definition agents_messages_get_last_message_text_by_role
    (thread_id role : pystr) : M text_answer :=
  remote_call (GetLastMessageTextByRole thread_id role)
              (messages_get_last_message_text_by_role project_client thread_id role).

Definition agents_messages_list (thread_id : pystr) : M (list Message.t) :=
  remote_call (MessagesList thread_id) (messages_list project_client thread_id).

(** The [while True] loop of [wait_for_run_completion]; one unit of fuel
    per iteration. *)
Fixpoint poll_loop (fuel : nat) (thread_id run_id : pystr)
    (max_wait_time start_time : Z) : M Run.t :=
  match fuel with
  | O => out_of_fuel
  | S fuel' =>
      run ← agents_runs_get thread_id run_id;
      if is_terminal (Run.status run) then mret run
      else
        t ← time_time;
        if t - start_time >? max_wait_time then
          try_except (agents_runs_cancel thread_id run_id) (fun _ => mret tt);;
          raise (TimeoutError (timed_out_msg max_wait_time))
        else
          asyncio_sleep 1;;
          poll_loop fuel' thread_id run_id max_wait_time start_time
  end.

Definition wait_for_run_completion (fuel : nat) (thread_id run_id : pystr)
    (max_wait_time : Z) : M Run.t :=
  start_time ← time_time;
  poll_loop fuel thread_id run_id max_wait_time start_time.

(** [start], the chat-start hook. *)
Definition start : M unit :=
  try_except
    (thread_id ← agents_threads_create;
     user_session_set (lit "thread_id") thread_id;;
     send welcome_message)
    (fun e => send (connection_error_msg (exn_str e))).

(** The primary path of the [completed] branch; [true] is its [return].
    What [format_agent_response] raises is caught here, after the step
    output has been set. *)
Definition primary_path (thread_id : pystr) : M bool :=
  try_except
    (response_text ←
       agents_messages_get_last_message_text_by_role thread_id (lit "assistant");
     if truthy_answer response_text then
       set_step_output response_ready;;
       formatted_response ← lift (format_answer response_text);
       send formatted_response;;
       mret true
     else mret false)
    (fun _ => mret false).

(** The fallback [for msg in messages_list] loop; [true] is its [return]. *)
Fixpoint fallback_loop (run : Run.t) (messages_list : list Message.t) : M bool :=
  match messages_list with
  | [] => mret false
  | msg :: rest =>
      if str_eqb (Message.role msg) (lit "assistant")
         && (Message.created_at msg >=? Run.created_at run)
      then
        response_text ← lift (extract_message_content msg);
        if truthy response_text then
          set_step_output response_ready;;
          send (format_agent_response response_text);;
          mret true
        else fallback_loop run rest
      else fallback_loop run rest
  end.

(** The branch on the status of the run the poll loop returned. *)
Definition render_run (thread_id : pystr) (run : Run.t) : M unit :=
  if str_eqb (Run.status run) (lit "completed") then
    returned ← primary_path thread_id;
    if returned : bool then mret tt
    else
      messages_list ← agents_messages_list thread_id;
      returned ← fallback_loop run messages_list;
      if returned : bool then mret tt
      else send no_response_msg
  else if str_eqb (Run.status run) (lit "failed") then
    send (failed_msg (error_message_of run))
  else
    send (status_msg (Run.formatted_status run)).

(** [handle_message], the message hook; [content] is [message.content]. *)
Definition handle_message (fuel : nat) (content : pystr) : M unit :=
  try_except
    (thread_id ← user_session_get (lit "thread_id");
     if negb (truthy thread_id) then send session_error_msg
     else
       let thread_id := default [] thread_id in
       agents_messages_create thread_id (lit "user") content;;
       run ← agents_runs_create thread_id AZURE_AI_FOUNDRY_AGENT_ID;
       run ← wait_for_run_completion fuel thread_id (Run.id run) 60;
       render_run thread_id run)
    (fun e => send (processing_error_msg (exn_str e))).

End Program.

(** ** Notions used in the statements *)

(** [p] occurs in [s] as a contiguous piece. *)
Definition occurs_in (p s : pystr) : Prop := exists a b, s = a ++ p ++ b.

(** A string is trimmed when neither end is whitespace. *)
Definition trimmed (s : pystr) : Prop := lstrip s = s /\ lstrip (rev s) = rev s.

(** A text that is not empty and is whitespace throughout. *)
Definition whitespace_only (x : option pystr) : Prop :=
  exists s, x = Some s /\ s <> [] /\ strip s = [].

(** A part the scan passes over: it has no [text.value] and its [type] is
    not 'text'. *)
Definition passed_over (content_item : ContentItem.t) : Prop :=
  has_text_value content_item = false /\ is_text_typed content_item = false.

Definition text_part (v : pystr) : ContentItem.t :=
  ContentItem.mk (Some (TextObj.mk (Some v))) (Some (lit "text")).

Definition image_part : ContentItem.t :=
  ContentItem.mk None (Some (lit "image_file")).

Definition broken_text_part : ContentItem.t :=
  ContentItem.mk None (Some (lit "text")).

Definition assistant_message (created_at : Z) (parts : list ContentItem.t) : Message.t :=
  Message.mk (lit "assistant") created_at (Some parts).


(** The world after a status poll, and after the one-unit sleep. *)
Definition after_poll (project_client : remote) (thread_id run_id : pystr) (w : world) : world :=
  record_call (RunsGet thread_id run_id)
              (count_poll (get_latency project_client (polls w)) w).

Definition after_sleep (w : world) : world :=
  mkWorld (user_session w) (sent w) (step_output w) (now w + 1) (polls w) (calls w).

(** The runs of the poll loop from a world, as a relation: the loop ends
    with the poll that returns a terminal run, fails, or finds the time
    exceeded; otherwise it sleeps and goes on. *)
Inductive poll_result (project_client : remote) (thread_id run_id : pystr)
    (max_wait_time start_time : Z) : world -> outcome Run.t -> world -> Prop :=
| poll_returned w run :
    runs_get project_client (polls w) thread_id run_id = Ok run ->
    is_terminal (Run.status run) = true ->
    poll_result project_client thread_id run_id max_wait_time start_time
      w (Ret run) (after_poll project_client thread_id run_id w)
| poll_failed w e :
    runs_get project_client (polls w) thread_id run_id = Fails e ->
    poll_result project_client thread_id run_id max_wait_time start_time
      w (Raise e) (after_poll project_client thread_id run_id w)
| poll_timed_out w run :
    runs_get project_client (polls w) thread_id run_id = Ok run ->
    is_terminal (Run.status run) = false ->
    now (after_poll project_client thread_id run_id w) - start_time > max_wait_time ->
    poll_result project_client thread_id run_id max_wait_time start_time
      w (Raise (TimeoutError (timed_out_msg max_wait_time)))
      (record_call (RunsCancel thread_id run_id)
                   (after_poll project_client thread_id run_id w))
| poll_again w run o w' :
    runs_get project_client (polls w) thread_id run_id = Ok run ->
    is_terminal (Run.status run) = false ->
    now (after_poll project_client thread_id run_id w) - start_time <= max_wait_time ->
    poll_result project_client thread_id run_id max_wait_time start_time
      (after_sleep (after_poll project_client thread_id run_id w)) o w' ->
    poll_result project_client thread_id run_id max_wait_time start_time w o w'.

(** Number of cancel calls among the remote operations issued. *)
Definition is_cancel (c : call) : bool :=
  match c with
  | RunsCancel _ _ => true
  | _ => false
  end.

Definition cancel_count (l : list call) : nat := length (List.filter is_cancel l).

(** The world once the user message and the run have been created. *)
Definition submitted (agent_id thread_id content : pystr) (w : world) : world :=
  record_call (RunsCreate thread_id agent_id)
              (record_call (MessagesCreate thread_id (lit "user") content) w).

(** The poll loop returns [run] for the message [content]: the session
    holds the thread identifier, the user message and the run are created,
    and [wait_for_run_completion] returns [run], leaving the world [w']. *)
Definition run_returned (project_client : remote) (agent_id : pystr) (fuel : nat)
    (content : pystr) (w : world) (thread_id : pystr) (run : Run.t) (w' : world) : Prop :=
  user_session w !! lit "thread_id" = Some thread_id /\
  thread_id <> [] /\
  messages_create project_client thread_id (lit "user") content = Ok tt /\
  exists created,
    runs_create project_client thread_id agent_id = Ok created /\
    wait_for_run_completion project_client fuel thread_id (Run.id created) 60
      (submitted agent_id thread_id content w) = Some (Ret run, w').

(** [last_error.message], when the run has a [last_error] with a message. *)
Definition last_error_message (run : Run.t) : option pystr :=
  match Run.last_error run with
  | Some (Some d) => d !! lit "message"
  | _ => None
  end.

(** A text that is there and not empty. *)
Definition nonempty_text (x : option pystr) : option pystr :=
  match x with
  | Some (c :: t) => Some (c :: t)
  | _ => None
  end.

(** The text the primary path yields: the answer of the convenience call
    when it succeeds with a [str] that is not empty. There is none when
    the call fails, answers [None] or an empty text, or answers an object
    that is not a [str]. *)
Definition primary_text (project_client : remote) (thread_id : pystr) : option pystr :=
  match messages_get_last_message_text_by_role project_client thread_id (lit "assistant") with
  | Ok (AnswerStr s) => nonempty_text (Some s)
  | _ => None
  end.

(** The world after a primary path that has sent nothing: the call is
    recorded, and the step output has been set when the answer was an
    object that is true and no [str]. *)
Definition after_primary (project_client : remote) (thread_id : pystr) (w : world) : world :=
  let w1 := record_call (GetLastMessageTextByRole thread_id (lit "assistant")) w in
  match messages_get_last_message_text_by_role project_client thread_id (lit "assistant") with
  | Ok (AnswerObject true) =>
      mkWorld (user_session w1) (sent w1) (Some response_ready) (now w1)
              (polls w1) (calls w1)
  | _ => w1
  end.

(** An assistant message not older than the run. *)
Definition qualifies (run : Run.t) (msg : Message.t) : bool :=
  str_eqb (Message.role msg) (lit "assistant")
  && (Message.created_at msg >=? Run.created_at run).

(** The non-empty text of a message, if it has one. *)
Definition message_text (msg : Message.t) : option pystr :=
  match extract_message_content msg with
  | Ret x => nonempty_text x
  | Raise _ => None
  end.

(** The first qualifying message, as the design document words the
    fallback. *)
Definition first_qualifying (run : Run.t) (msgs : list Message.t) : option Message.t :=
  head (List.filter (qualifies run) msgs).

(** The text the fallback loop takes: that of the first qualifying message
    that has a non-empty text. *)
Definition fallback_text (run : Run.t) (msgs : list Message.t) : option pystr :=
  head (omap message_text (List.filter (qualifies run) msgs)).

(** The world after a text has been reported ready and sent formatted. *)
Definition replied (text : pystr) (w : world) : world :=
  mkWorld (user_session w) (sent w ++ [format_agent_response (Some text)])
          (Some response_ready) (now w) (polls w) (calls w).

(** The world after a notice has been sent. *)
Definition notified (content : pystr) (w : world) : world :=
  mkWorld (user_session w) (sent w ++ [content]) (step_output w) (now w)
          (polls w) (calls w).

(** ** Sample worlds and services *)

Definition session_world : world :=
  mkWorld {[ lit "thread_id" := lit "t1" ]} [] None 0 0 [].

Definition fresh_world : world := mkWorld ∅ [] None 0 0 [].

(** A run whose status is a plain [str]. *)
Definition sample_run (status : pystr) (last_error : option (option (gmap pystr pystr))) : Run.t :=
  Run.mk (lit "r1") status status 100 last_error.

(** A service that answers the k-th poll with the k-th status of
    [statuses], and with [final] after them. *)
Definition sample_remote (statuses : list pystr) (final : Run.t) (cancel : reply unit)
    (last_text : reply (option pystr)) (msgs : reply (list Message.t)) : remote :=
  mkRemote (Ok (lit "t1"))
           (fun _ _ _ => Ok tt)
           (fun _ _ => Ok (sample_run (lit "queued") None))
           (fun k _ _ =>
              match statuses !! k with
              | Some s => Ok (sample_run s None)
              | None => Ok final
              end)
           (fun _ => 0%N)
           (fun _ _ => cancel)
           (fun _ _ => match last_text with
                       | Ok x => Ok (answer_of_text x)
                       | Fails e => Fails e
                       end)
           (fun _ => msgs).

(** ** Further notions: the timing of the polls *)

(** Time that [n] rounds of the loop take, a round being a status poll and
    the one-unit sleep after it; [p0] is the number of polls made before
    the loop started. *)
Fixpoint rounds_time (project_client : remote) (p0 n : nat) : Z :=
  match n with
  | O => 0
  | S n' =>
      rounds_time project_client p0 n'
      + Z.of_N (get_latency project_client (p0 + n')) + 1
  end.

(** Time elapsed since the loop started when its poll number [k], counted
    from 0, has answered. *)
Definition elapsed_after (project_client : remote) (p0 k : nat) : Z :=
  rounds_time project_client p0 k + Z.of_N (get_latency project_client (p0 + k)).

(** The world after [n] rounds of the loop. *)
Fixpoint after_rounds (project_client : remote) (thread_id run_id : pystr)
    (n : nat) (w : world) : world :=
  match n with
  | O => w
  | S n' =>
      after_rounds project_client thread_id run_id n'
        (after_sleep (after_poll project_client thread_id run_id w))
  end.

(** Poll number [k] of a loop started in [w] finds the run still going, in
    time: it answers a run whose status is not terminal, no later than
    [max_wait_time] after the start. *)
Definition pending (project_client : remote) (thread_id run_id : pystr)
    (max_wait_time : Z) (w : world) (k : nat) : Prop :=
  exists run,
    runs_get project_client (polls w + k) thread_id run_id = Ok run /\
    is_terminal (Run.status run) = false /\
    elapsed_after project_client (polls w) k <= max_wait_time.

(** ** Construction of the client *)

(** The credential handed to the client: the platform's default identity,
    or the API key as a bearer token ([APIKeyCredential]). *)
Inductive credential :=
| DefaultAzureCredential
| APIKeyCredential (api_key : pystr).

(** What the platform answers when the credential and the client are
    constructed: [DefaultAzureCredential()] and
    [AIProjectClient(endpoint=..., credential=...)]. *)
Record platform (client : Type) := mkPlatform {
  default_azure_credential : reply unit;
  ai_project_client : pystr -> credential -> reply client
}.
Arguments default_azure_credential {client} _.
Arguments ai_project_client {client} _ _ _.

(** What the start-up code has printed and logged as errors. *)
Record console := mkConsole {
  printed : list pystr;
  logged_errors : list pystr
}.

Definition connected_msg : pystr := check_mark ++ lit " Connected to Azure AI Foundry".

Definition trying_alternative_msg : pystr :=
  [128260%N] ++ lit " Trying alternative authentication...".

(** [f"Failed to initialize Azure AI Projects client: {e}"] *)
Definition failed_to_initialize_msg (e : exn) : pystr :=
  lit "Failed to initialize Azure AI Projects client: " ++ exn_str e.

(** The module-level [try] that builds [project_client]: the default
    credential first and, on any exception, the API key; an exception of
    the second attempt is logged and raised again. *)
Definition initialize_client {client : Type} (p : platform client)
    (AZURE_AI_FOUNDRY_ENDPOINT AZURE_AI_FOUNDRY_API_KEY : pystr)
    : outcome client * console :=
  let first_attempt : reply client :=
    match default_azure_credential p with
    | Ok _ => ai_project_client p AZURE_AI_FOUNDRY_ENDPOINT DefaultAzureCredential
    | Fails e => Fails e
    end in
  match first_attempt with
  | Ok project_client => (Ret project_client, mkConsole [connected_msg] [])
  | Fails _ =>
      match ai_project_client p AZURE_AI_FOUNDRY_ENDPOINT
              (APIKeyCredential AZURE_AI_FOUNDRY_API_KEY) with
      | Ok project_client =>
          (Ret project_client, mkConsole [trying_alternative_msg; connected_msg] [])
      | Fails e =>
          (Raise e, mkConsole [trying_alternative_msg] [failed_to_initialize_msg e])
      end
  end.

(** ** Further sample services *)

(** A service given by its answers, the same for every thread and run. *)
Definition scripted_remote (thread : reply pystr) (posted : reply unit)
    (created : reply Run.t) (poll : nat -> reply Run.t) (latency : nat -> N)
    (cancel : reply unit) (last_text : reply (option pystr))
    (msgs : reply (list Message.t)) : remote :=
  mkRemote thread (fun _ _ _ => posted) (fun _ _ => created)
           (fun k _ _ => poll k) latency
           (fun _ _ => cancel)
           (fun _ _ => match last_text with
                       | Ok x => Ok (answer_of_text x)
                       | Fails e => Fails e
                       end)
           (fun _ => msgs).

(** The run is queued at the first poll and completed at the second, which
    takes 100 time-units. *)
Definition slow_remote : remote :=
  scripted_remote (Ok (lit "t1")) (Ok tt) (Ok (sample_run (lit "queued") None))
    (fun k => match k with
              | O => Ok (sample_run (lit "queued") None)
              | _ => Ok (sample_run (lit "completed") None)
              end)
    (fun k => match k with O => 0%N | _ => 100%N end)
    (Ok tt) (Ok (Some (lit "Hi there"))) (Ok []).

(** The second poll fails. *)
Definition broken_remote : remote :=
  scripted_remote (Ok (lit "t1")) (Ok tt) (Ok (sample_run (lit "queued") None))
    (fun k => match k with
              | O => Ok (sample_run (lit "queued") None)
              | _ => Fails (RemoteError (lit "connection reset"))
              end)
    (fun _ => 0%N)
    (Ok tt) (Ok None) (Ok []).

(** The run stays in progress, each poll taking 40 time-units. *)
Definition stuck_remote : remote :=
  scripted_remote (Ok (lit "t1")) (Ok tt) (Ok (sample_run (lit "queued") None))
    (fun _ => Ok (sample_run (lit "in_progress") None))
    (fun _ => 40%N)
    (Fails (RemoteError (lit "cannot cancel"))) (Ok None) (Ok []).

(** Nothing can be created. *)
Definition unreachable_remote : remote :=
  scripted_remote (Fails (RemoteError (lit "unauthorized")))
    (Fails (RemoteError (lit "unauthorized")))
    (Fails (RemoteError (lit "unauthorized")))
    (fun _ => Fails (RemoteError (lit "unauthorized")))
    (fun _ => 0%N)
    (Fails (RemoteError (lit "unauthorized"))) (Fails (RemoteError (lit "unauthorized")))
    (Fails (RemoteError (lit "unauthorized"))).

(** A platform without a default identity, on which the API key works; the
    client is represented by the credential it was built with. *)
Definition key_only_platform : platform credential :=
  mkPlatform credential (Fails (RemoteError (lit "no default credential")))
             (fun _ c => Ok c).

(** The user's messages [contents] handled one after the other, as the
    chat delivers them to [handle_message]. *)
Fixpoint handle_messages (project_client : remote) (agent_id : pystr) (fuel : nat)
    (contents : list pystr) : M unit :=
  match contents with
  | [] => mret tt
  | content :: rest =>
      handle_message project_client agent_id fuel content;;
      handle_messages project_client agent_id fuel rest
  end.

(** The run is in progress at the polls made at times 0 to 60 and completed
    at the poll made at time 61; the polls take no time. *)
Definition late_remote : remote :=
  sample_remote (replicate 61 (lit "in_progress")) (sample_run (lit "completed") None)
                (Ok tt) (Ok None) (Ok []).

(** A service whose convenience call answers [answer], the run being
    queued at the first poll and completed at the second. *)
Definition answering_remote (answer : reply text_answer) (msgs : list Message.t) : remote :=
  mkRemote (Ok (lit "t1")) (fun _ _ _ => Ok tt)
           (fun _ _ => Ok (sample_run (lit "queued") None))
           (fun k _ _ =>
              match k with
              | O => Ok (sample_run (lit "queued") None)
              | _ => Ok (sample_run (lit "completed") None)
              end)
           (fun _ => 0%N)
           (fun _ _ => Ok tt) (fun _ _ => answer) (fun _ => Ok msgs).
(** * Properties *)

(** ** Strings *)

Lemma startswith_true s p : startswith s p = true <-> exists t, s = p ++ t.
Proof.
  revert s; induction p as [|a p IH]; intros s; simpl.
  - split; [intros _; by exists s | done].
  - destruct s as [|b s]; simpl.
    + split; [done | intros [t Ht]; discriminate].
    + rewrite andb_true_iff, N.eqb_eq, IH. split.
      * intros [-> [t ->]]. by exists t.
      * intros [t Ht]. injection Ht as -> ->. eauto.
Qed.

Lemma contains_true p s : contains p s = true <-> occurs_in p s.
Proof.
  unfold occurs_in. induction s as [|c s IH].
  - simpl. rewrite orb_false_r, startswith_true. split.
    + intros [t Ht]. exists [], t. done.
    + intros [a [b Hab]]. destruct a; [|discriminate]. by exists b.
  - cbn [contains]. rewrite orb_true_iff, startswith_true, IH. split.
    + intros [[t Ht] | [a [b Hab]]].
      * exists [], t. done.
      * exists (c :: a), b. by rewrite Hab.
    + intros [a [b Hab]]. destruct a as [|c' a]; simpl in Hab.
      * left. by exists b.
      * right. injection Hab as -> ->. by exists a, b.
Qed.

Lemma occurs_in_middle (a p b : pystr) : occurs_in p (a ++ p ++ b).
Proof. by exists a, b. Qed.

Lemma occurs_in_refl (p : pystr) : occurs_in p p.
Proof. exists [], []. by rewrite app_nil_r. Qed.

Lemma occurs_in_app_l (p s b : pystr) : occurs_in p s -> occurs_in p (s ++ b).
Proof. intros (x & y & ->). exists x, (y ++ b). by rewrite <- !app_assoc. Qed.

Lemma occurs_in_app_r (p a s : pystr) : occurs_in p s -> occurs_in p (a ++ s).
Proof. intros (x & y & ->). exists (a ++ x), y. by rewrite <- !app_assoc. Qed.

Lemma occurs_in_concat (p l : pystr) (ls : list pystr) :
  l ∈ ls -> occurs_in p l -> occurs_in p (concat ls).
Proof.
  induction 1 as [l ls | l l' ls _ IH]; intros Hp; simpl.
  - by apply occurs_in_app_l.
  - by apply occurs_in_app_r, IH.
Qed.

(** A piece of a line is a piece of the whole text. *)
Lemma occurs_in_unlines (p l : pystr) (ls : list pystr) :
  l ∈ ls -> occurs_in p l -> occurs_in p (unlines ls).
Proof.
  intros Hl Hp. destruct ls as [|l0 ls]; [by apply elem_of_nil in Hl |].
  unfold unlines. apply elem_of_cons in Hl as [-> | Hl].
  - by apply occurs_in_app_l.
  - apply occurs_in_app_r, (occurs_in_concat _ (nl ++ l)).
    + by apply (list_elem_of_fmap_2 (fun x => nl ++ x)).
    + by apply occurs_in_app_r.
Qed.

Ltac find_line :=
  repeat first [apply list_elem_of_here | apply list_elem_of_further].

(** [lstrip] drops a run of whitespace and nothing else. *)
Lemma lstrip_split s : exists t, s = t ++ lstrip s /\ forallb isspace t = true.
Proof.
  induction s as [|c s [t [Ht Hsp]]]; simpl.
  - by exists [].
  - destruct (isspace c) eqn:Hc.
    + exists (c :: t). simpl. rewrite Hc, Hsp. split; [by f_equal | done].
    + by exists [].
Qed.

Lemma lstrip_head s c t : lstrip s = c :: t -> isspace c = false.
Proof.
  induction s as [|d s IH]; simpl; [done |].
  destruct (isspace d) eqn:Hd; [done |]. by intros [= -> ->].
Qed.

Lemma lstrip_fixed c t : isspace c = false -> lstrip (c :: t) = c :: t.
Proof. intros H. simpl. by rewrite H. Qed.

Lemma lstrip_idem s : lstrip (lstrip s) = lstrip s.
Proof.
  destruct (lstrip s) as [|c t] eqn:E; [done |].
  apply lstrip_fixed. by eapply lstrip_head.
Qed.

Lemma strip_trimmed_id s : trimmed s -> strip s = s.
Proof.
  intros [Hl Hr]. unfold strip, rstrip. by rewrite Hl, Hr, rev_involutive.
Qed.

Lemma rstrip_prefix s : exists t, s = rstrip s ++ t.
Proof.
  unfold rstrip. destruct (lstrip_split (rev s)) as [t [Ht _]].
  exists (rev t). rewrite <- rev_app_distr, <- Ht. by rewrite rev_involutive.
Qed.

Lemma strip_trimmed s : trimmed (strip s).
Proof.
  unfold trimmed, strip. split.
  - destruct (rstrip_prefix (lstrip s)) as [t Ht].
    destruct (rstrip (lstrip s)) as [|c u] eqn:E; [done |].
    apply lstrip_fixed. rewrite <- app_comm_cons in Ht.
    by eapply lstrip_head.
  - unfold rstrip. rewrite rev_involutive. apply lstrip_idem.
Qed.

Lemma strip_idem s : strip (strip s) = strip s.
Proof. apply strip_trimmed_id, strip_trimmed. Qed.

Lemma trimmed_app h s :
  lstrip h = h -> h <> [] -> trimmed s -> s <> [] -> trimmed (h ++ s).
Proof.
  intros Hh Hne [_ Hs] Hse. split.
  - destruct h as [|c h]; [done |]. simpl.
    apply lstrip_fixed. by eapply lstrip_head.
  - rewrite rev_app_distr. destruct (rev s) as [|c r] eqn:E.
    + apply (f_equal (@rev N)) in E. rewrite rev_involutive in E. done.
    + simpl. apply lstrip_fixed. by eapply lstrip_head.
Qed.

Lemma lstrip_snoc l c : isspace c = false -> lstrip (l ++ [c]) = lstrip l ++ [c].
Proof.
  intros Hc. induction l as [|d l IH]; simpl.
  - by rewrite Hc.
  - by destruct (isspace d).
Qed.

Lemma rstrip_cons c t : isspace c = false -> rstrip (c :: t) = c :: rstrip t.
Proof.
  intros Hc. unfold rstrip. simpl rev.
  by rewrite lstrip_snoc, rev_app_distr.
Qed.

Lemma strip_keeps_heading_marker s :
  startswith s (lit "#") = true -> startswith (strip s) (lit "#") = true.
Proof.
  intros H. apply startswith_true in H as [t ->]. simpl.
  unfold strip. rewrite lstrip_fixed by done. by rewrite rstrip_cons.
Qed.

Lemma trimmed_no_content_notice : trimmed no_content_notice.
Proof. by vm_compute. Qed.

(** ** The response formatter *)

Lemma format_agent_response_falsy x :
  truthy x = false -> format_agent_response x = no_content_notice.
Proof. by destruct x as [[|c s]|]. Qed.

Lemma format_agent_response_unheaded s :
  s <> [] -> startswith (strip s) (lit "#") = false ->
  format_agent_response (Some s) = agent_response_heading ++ strip s.
Proof.
  intros Hs Hh. destruct s as [|c s]; [done |].
  unfold format_agent_response. rewrite Hh. simpl negb. cbv iota.
  by destruct (looks_like_code _).
Qed.

Lemma format_agent_response_headed s :
  s <> [] -> startswith (strip s) (lit "#") = true ->
  format_agent_response (Some s) = strip s.
Proof.
  intros Hs Hh. destruct s as [|c s]; [done |].
  unfold format_agent_response. by rewrite Hh.
Qed.

Lemma format_agent_response_starts_with_heading_marker x :
  startswith (format_agent_response x) (lit "#") = true.
Proof.
  destruct (truthy x) eqn:Hx.
  - destruct x as [[|c s]|]; try done.
    destruct (startswith (strip (c :: s)) (lit "#")) eqn:Hh.
    + by rewrite format_agent_response_headed.
    + by rewrite format_agent_response_unheaded.
  - by rewrite format_agent_response_falsy.
Qed.

Lemma startswith_nonempty s p : p <> [] -> startswith s p = true -> s <> [].
Proof. intros Hp H. apply startswith_true in H as [t ->]. by destruct p. Qed.

(** C8. [format_agent_response]: a [None] or empty input gives the fixed
    no-content notice; any other input is stripped, and the stripped text
    is returned as it is when it begins with '#' and behind the
    "Agent Response" heading when it does not, whatever the code-block
    test says; the result is never empty. *)
Theorem format_agent_response_spec (x : option pystr) :
  (truthy x = false -> format_agent_response x = no_content_notice) /\
  (forall s, x = Some s -> truthy x = true ->
     (startswith (strip s) (lit "#") = false ->
        forall code_like, looks_like_code (strip s) = code_like ->
        format_agent_response x = agent_response_heading ++ strip s) /\
     (startswith (strip s) (lit "#") = true ->
        format_agent_response x = strip s)) /\
  format_agent_response x <> [].
Proof.
  split; [apply format_agent_response_falsy |]. split.
  - intros s -> Hs. assert (s <> []) by (by destruct s). split.
    + intros Hh _ _. by apply format_agent_response_unheaded.
    + by apply format_agent_response_headed.
  - eapply startswith_nonempty; [|apply format_agent_response_starts_with_heading_marker].
    done.
Qed.

Lemma format_agent_response_spec_witness :
  format_agent_response None = no_content_notice /\
  format_agent_response (Some (lit " def f(): pass "))
    = agent_response_heading ++ lit "def f(): pass" /\
  format_agent_response (Some (lit " Hi there "))
    = agent_response_heading ++ lit "Hi there" /\
  format_agent_response (Some (lit " # Title ")) = lit "# Title".
Proof.
  split; [| split; [| split]].
  - destruct (format_agent_response_spec None) as [H _]. by apply H.
  - destruct (format_agent_response_spec (Some (lit " def f(): pass "))) as [_ [H _]].
    destruct (H (lit " def f(): pass ") eq_refl eq_refl) as [Hu _].
    apply (Hu eq_refl true). reflexivity.
  - destruct (format_agent_response_spec (Some (lit " Hi there "))) as [_ [H _]].
    destruct (H (lit " Hi there ") eq_refl eq_refl) as [Hu _].
    apply (Hu eq_refl false). reflexivity.
  - destruct (format_agent_response_spec (Some (lit " # Title "))) as [_ [H _]].
    destruct (H (lit " # Title ") eq_refl eq_refl) as [_ Hh].
    apply (Hh eq_refl).
Defined.

(** The second pass of the formatter only strips: the first result begins
    with '#', so no heading is added to it. *)
Lemma format_agent_response_again x :
  format_agent_response (Some (format_agent_response x))
  = strip (format_agent_response x).
Proof.
  pose proof (format_agent_response_starts_with_heading_marker x) as H.
  apply format_agent_response_headed.
  - eapply startswith_nonempty; [| exact H]. done.
  - by apply strip_keeps_heading_marker.
Qed.

Lemma strip_format_agent_response x :
  ~ whitespace_only x ->
  strip (format_agent_response x) = format_agent_response x.
Proof.
  intros Hw. destruct (truthy x) eqn:Hx.
  - destruct x as [[|c s]|]; try done.
    destruct (startswith (strip (c :: s)) (lit "#")) eqn:Hh.
    + rewrite format_agent_response_headed by done. apply strip_idem.
    + rewrite format_agent_response_unheaded by done.
      apply strip_trimmed_id, trimmed_app; try done.
      * apply strip_trimmed.
      * intros E. apply Hw. by exists (c :: s).
  - rewrite format_agent_response_falsy by done.
    apply strip_trimmed_id, trimmed_no_content_notice.
Qed.

Lemma format_agent_response_whitespace_only x :
  whitespace_only x -> format_agent_response x = agent_response_heading.
Proof.
  intros [s [-> [Hs E]]].
  rewrite format_agent_response_unheaded by (by rewrite ?E).
  by rewrite E, app_nil_r.
Qed.

(** C4, as the design document has it, fails on its own example: the
    unheaded text "plain text" is formatted to the same result by one pass
    and by two, with a single heading. *)
Lemma format_agent_response_plain_text_idempotent :
  truthy (Some (lit "plain text")) = true /\
  startswith (lit "plain text") (lit "#") = false /\
  format_agent_response (Some (format_agent_response (Some (lit "plain text"))))
    = format_agent_response (Some (lit "plain text")) /\
  format_agent_response (Some (format_agent_response (Some (lit "plain text"))))
    = agent_response_heading ++ lit "plain text".
Proof. by vm_compute. Qed.

(** C4, amended. A second pass of [format_agent_response] strips the first
    result and adds no heading. It changes the result exactly when the
    input is non-empty whitespace: then the first result is the heading
    with its blank line, and the second pass strips that blank line. *)
Theorem format_agent_response_twice (x : option pystr) :
  format_agent_response (Some (format_agent_response x))
    = strip (format_agent_response x) /\
  (format_agent_response (Some (format_agent_response x)) = format_agent_response x
     <-> ~ whitespace_only x) /\
  (whitespace_only x ->
     format_agent_response x = agent_response_heading /\
     format_agent_response (Some (format_agent_response x))
       = lit "## " ++ robot_face ++ lit " Agent Response").
Proof.
  split; [apply format_agent_response_again |].
  rewrite format_agent_response_again. split.
  - split; [| apply strip_format_agent_response].
    intros E Hw. rewrite format_agent_response_whitespace_only in E by done.
    by vm_compute in E.
  - intros Hw. rewrite format_agent_response_whitespace_only by done.
    split; [done | by vm_compute].
Qed.

Lemma format_agent_response_twice_witness :
  format_agent_response (Some (format_agent_response (Some (lit "  "))))
    = lit "## " ++ robot_face ++ lit " Agent Response" /\
  format_agent_response (Some (format_agent_response (Some (lit "plain text"))))
    = format_agent_response (Some (lit "plain text")).
Proof.
  split.
  - destruct (format_agent_response_twice (Some (lit "  "))) as [_ [_ H]].
    apply H. exists (lit "  "). by vm_compute.
  - destruct (format_agent_response_twice (Some (lit "plain text"))) as [_ [[_ H] _]].
    apply H. intros [s [[= <-] [_ E]]]. by vm_compute in E.
Defined.

(** ** The response extractor *)

Lemma text_value_has content_item :
  has_text_value content_item = true <-> exists v, text_value content_item = Ret v.
Proof.
  unfold has_text_value, text_value.
  destruct (ContentItem.text content_item) as [[[v|]]|]; simpl;
    split; try done; try (intros [? ?]; done). by exists v.
Qed.

Lemma text_value_lacks {A} content_item (k : pystr -> outcome A) :
  has_text_value content_item = false ->
  exists e, text_value content_item ≫= k = Raise e.
Proof.
  unfold has_text_value, text_value.
  destruct (ContentItem.text content_item) as [[[v|]]|]; simpl; try done; eauto.
Qed.

Lemma scan_content_passed_over skipped rest :
  Forall passed_over skipped -> scan_content (skipped ++ rest) = scan_content rest.
Proof.
  induction 1 as [|item skipped [Hv Ht] _ IH]; [done |].
  simpl. by rewrite Hv, Ht.
Qed.

Lemma scan_content_found item rest v :
  text_value item = Ret v -> scan_content (item :: rest) = Ret (Some v).
Proof.
  intros Hv. simpl.
  assert (has_text_value item = true) as -> by (apply text_value_has; eauto).
  by rewrite Hv.
Qed.

Lemma scan_content_none items :
  Forall (fun item => has_text_value item = false) items ->
  scan_content items = Ret None \/ exists e, scan_content items = Raise e.
Proof.
  induction 1 as [|item items Hv _ IH]; simpl; [by left |].
  rewrite Hv. destruct (is_text_typed item); [| done].
  right. by apply text_value_lacks.
Qed.

Lemma extract_message_content_scan message items :
  Message.content message = Some items ->
  extract_message_content message
  = try_except_pure (scan_content items) (fun _ => Ret None).
Proof. unfold extract_message_content. intros ->. by destruct items. Qed.

Lemma extract_message_content_total message :
  exists x, extract_message_content message = Ret x.
Proof.
  unfold extract_message_content, try_except_pure.
  destruct (match Message.content message with
            | Some (item :: items) => scan_content (item :: items)
            | _ => Ret None
            end); eauto.
Qed.

(** C5. [extract_message_content] raises nothing, whatever the message.
    It returns [None] for a message without content parts and for one in
    which no part has a text value. Scanning in order and passing over the
    parts that have no text value and are not typed 'text', it returns the
    text value of the first part that has one, and [None] when it meets a
    part typed 'text' that lacks the value. *)
Theorem extract_message_content_spec (message : Message.t) :
  (exists v, extract_message_content message = Ret v) /\
  (Message.content message = None \/ Message.content message = Some [] ->
     extract_message_content message = Ret None) /\
  (forall items, Message.content message = Some items ->
     Forall (fun item => has_text_value item = false) items ->
     extract_message_content message = Ret None) /\
  (forall skipped item rest v,
     Message.content message = Some (skipped ++ item :: rest) ->
     Forall passed_over skipped ->
     text_value item = Ret v ->
     extract_message_content message = Ret (Some v)) /\
  (forall skipped item rest,
     Message.content message = Some (skipped ++ item :: rest) ->
     Forall passed_over skipped ->
     has_text_value item = false -> is_text_typed item = true ->
     extract_message_content message = Ret None).
Proof.
  split; [| split; [| split; [| split]]].
  - apply extract_message_content_total.
  - unfold extract_message_content. by intros [-> | ->].
  - intros items Hc Hall. rewrite (extract_message_content_scan _ _ Hc).
    by destruct (scan_content_none items Hall) as [-> | [e ->]].
  - intros skipped item rest v Hc Hs Hv.
    rewrite (extract_message_content_scan _ _ Hc).
    by rewrite scan_content_passed_over, (scan_content_found _ _ _ Hv).
  - intros skipped item rest Hc Hs Hv Ht.
    rewrite (extract_message_content_scan _ _ Hc).
    rewrite scan_content_passed_over by done. simpl. rewrite Hv, Ht.
    by destruct (text_value_lacks item (fun v => Ret (Some v)) Hv) as [e ->].
Qed.

Lemma extract_message_content_spec_witness :
  extract_message_content (Message.mk (lit "assistant") 7 None) = Ret None /\
  extract_message_content (assistant_message 7 [image_part]) = Ret None /\
  extract_message_content
    (assistant_message 7 [image_part; text_part (lit "Hi there"); text_part (lit "later")])
    = Ret (Some (lit "Hi there")) /\
  extract_message_content
    (assistant_message 7 [image_part; broken_text_part; text_part (lit "Hi there")])
    = Ret None.
Proof.
  split; [| split; [| split]].
  - destruct (extract_message_content_spec (Message.mk (lit "assistant") 7 None))
      as [_ [H _]].
    apply H. by left.
  - destruct (extract_message_content_spec (assistant_message 7 [image_part]))
      as [_ [_ [H _]]].
    apply (H [image_part] eq_refl). by repeat constructor.
  - destruct (extract_message_content_spec
                (assistant_message 7
                   [image_part; text_part (lit "Hi there"); text_part (lit "later")]))
      as [_ [_ [_ [H _]]]].
    apply (H [image_part] (text_part (lit "Hi there")) [text_part (lit "later")]
             (lit "Hi there") eq_refl); [| reflexivity].
    by repeat constructor.
  - destruct (extract_message_content_spec
                (assistant_message 7
                   [image_part; broken_text_part; text_part (lit "Hi there")]))
      as [_ [_ [_ [_ H]]]].
    apply (H [image_part] broken_text_part [text_part (lit "Hi there")] eq_refl);
      [| reflexivity | reflexivity].
    by repeat constructor.
Defined.

(** ** Start-up configuration check *)

(** C9, as the design document has it, fails when one setting is missing:
    with only the API key unset, the error message still names the
    endpoint and the agent identifier, which are set. *)
Lemma validate_environment_names_set_variables :
  truthy (Some (lit "https://foundry.example")) = true /\
  truthy (Some (lit "agent-1")) = true /\
  validate_environment (Some (lit "https://foundry.example")) None (Some (lit "agent-1"))
    = Raise (ValueError missing_environment_msg) /\
  contains (lit "AZURE_AI_FOUNDRY_ENDPOINT") missing_environment_msg = true /\
  contains (lit "AZURE_AI_FOUNDRY_AGENT_ID") missing_environment_msg = true.
Proof. by vm_compute. Qed.

(** C9, amended. When any of the three settings is unset or empty, the
    start-up check raises a [ValueError] whose message is one fixed text
    that names all three settings, whichever of them are missing; when all
    three are set it raises nothing. *)
Theorem validate_environment_spec (endpoint api_key agent_id : option pystr) :
  (truthy endpoint = false \/ truthy api_key = false \/ truthy agent_id = false ->
     validate_environment endpoint api_key agent_id
     = Raise (ValueError missing_environment_msg)) /\
  (truthy endpoint = true -> truthy api_key = true -> truthy agent_id = true ->
     validate_environment endpoint api_key agent_id = Ret tt) /\
  occurs_in (lit "AZURE_AI_FOUNDRY_ENDPOINT") missing_environment_msg /\
  occurs_in (lit "AZURE_AI_FOUNDRY_API_KEY") missing_environment_msg /\
  occurs_in (lit "AZURE_AI_FOUNDRY_AGENT_ID") missing_environment_msg.
Proof.
  unfold validate_environment, all. simpl forallb.
  split; [| split; [| split; [| split]]].
  - intros [-> | [-> | ->]]; simpl; by rewrite ?andb_false_r.
  - by intros -> -> ->.
  - by apply contains_true; vm_compute.
  - by apply contains_true; vm_compute.
  - by apply contains_true; vm_compute.
Qed.

Lemma validate_environment_spec_witness :
  validate_environment (Some (lit "https://foundry.example")) (Some []) (Some (lit "agent-1"))
    = Raise (ValueError missing_environment_msg) /\
  validate_environment (Some (lit "https://foundry.example")) (Some (lit "key"))
                       (Some (lit "agent-1"))
    = Ret tt.
Proof.
  split.
  - destruct (validate_environment_spec (Some (lit "https://foundry.example")) (Some [])
                (Some (lit "agent-1"))) as [H _].
    apply H. right. left. reflexivity.
  - destruct (validate_environment_spec (Some (lit "https://foundry.example"))
                (Some (lit "key")) (Some (lit "agent-1"))) as [_ [H _]].
    apply H; reflexivity.
Defined.

(** ** The poll loop *)

Section PollLoop.

Variable project_client : remote.
Variables thread_id run_id : pystr.
Variables max_wait_time start_time : Z.

Local Abbreviation loop fuel := (poll_loop project_client fuel thread_id run_id max_wait_time start_time).
Local Abbreviation result := (poll_result project_client thread_id run_id max_wait_time start_time).
Local Abbreviation polled := (after_poll project_client thread_id run_id).

(** One iteration of the loop. *)
Lemma poll_loop_step fuel w :
  loop (S fuel) w =
  match runs_get project_client (polls w) thread_id run_id with
  | Fails e => Some (Raise e, polled w)
  | Ok run =>
      if is_terminal (Run.status run) then Some (Ret run, polled w)
      else if now (polled w) - start_time >? max_wait_time
      then Some (Raise (TimeoutError (timed_out_msg max_wait_time)),
                 record_call (RunsCancel thread_id run_id) (polled w))
      else loop fuel (after_sleep (polled w))
  end.
Proof.
  cbn [poll_loop]. unfold mbind, M_bind, agents_runs_get, remote_call.
  fold (polled w).
  destruct (runs_get project_client (polls w) thread_id run_id) as [run|e]; [| done].
  destruct (is_terminal (Run.status run)); [done |].
  unfold time_time. destruct (_ >? _); [| done].
  unfold try_except, agents_runs_cancel, remote_call, raise.
  by destruct (runs_cancel project_client thread_id run_id).
Qed.

Lemma poll_loop_sound fuel : forall w o w',
  loop fuel w = Some (o, w') -> result w o w'.
Proof.
  induction fuel as [|fuel IH]; intros w o w'; [done |].
  rewrite poll_loop_step.
  destruct (runs_get project_client (polls w) thread_id run_id) as [run|e] eqn:Hget.
  - destruct (is_terminal (Run.status run)) eqn:Hterm.
    + intros [= <- <-]. by apply poll_returned.
    + destruct (_ >? _) eqn:Hlate.
      * intros [= <- <-]. eapply poll_timed_out; eauto. lia.
      * intros Hrest. eapply poll_again; eauto. lia.
  - intros [= <- <-]. by apply poll_failed.
Qed.

(** The loop needs at most one iteration per time-unit left, and one. *)
Lemma poll_loop_total fuel : forall w,
  (Z.to_nat (max_wait_time + 1 - (now w - start_time)) < fuel)%nat ->
  exists o w', loop fuel w = Some (o, w').
Proof.
  induction fuel as [|fuel IH]; intros w Hfuel; [lia |].
  rewrite poll_loop_step.
  destruct (runs_get project_client (polls w) thread_id run_id) as [run|e]; [| eauto].
  destruct (is_terminal (Run.status run)); [eauto |].
  destruct (_ >? _) eqn:Hlate; [eauto |].
  apply IH. simpl in *. lia.
Qed.

Lemma poll_result_frame w o w' :
  result w o w' ->
  user_session w' = user_session w /\ sent w' = sent w /\
  step_output w' = step_output w /\ now w <= now w' /\ (polls w < polls w')%nat.
Proof.
  induction 1 as [w run _ _ | w e _ | w run _ _ _ | w run o w' _ _ _ _ IH];
    simpl in *; try (repeat split; lia).
  destruct IH as (-> & -> & -> & ? & ?). repeat split; lia.
Qed.

Lemma poll_result_count w o w' :
  result w o w' ->
  (polls w' - polls w <= Z.to_nat (max_wait_time + 1 - (now w - start_time)) + 1)%nat.
Proof.
  induction 1 as [w run _ _ | w e _ | w run _ _ _ | w run o w' _ _ Hnow _ IH];
    simpl in *; lia.
Qed.

(** How the loop ends, with the remote operations it issued; [n] is the
    number of polls before the last one. *)
Lemma poll_result_outcome w o w' :
  result w o w' ->
  exists n,
    polls w' = S (polls w + n) /\
    match o with
    | Ret run =>
        runs_get project_client (polls w + n) thread_id run_id = Ok run /\
        is_terminal (Run.status run) = true /\
        calls w' = calls w ++ repeat (RunsGet thread_id run_id) (S n)
    | Raise e =>
        (runs_get project_client (polls w + n) thread_id run_id = Fails e /\
         calls w' = calls w ++ repeat (RunsGet thread_id run_id) (S n)) \/
        (e = TimeoutError (timed_out_msg max_wait_time) /\
         now w' - start_time > max_wait_time /\
         calls w' = calls w ++ repeat (RunsGet thread_id run_id) (S n)
                            ++ [RunsCancel thread_id run_id])
    end.
Proof.
  induction 1 as [w run Hget Hterm | w e Hget | w run Hget Hterm Hlate
                 | w run o w' Hget Hterm Hnow _ (n & Hpolls & IH)].
  - exists 0%nat. rewrite Nat.add_0_r. simpl. repeat split; (done || lia).
  - exists 0%nat. rewrite Nat.add_0_r. simpl. split; [lia | by left].
  - exists 0%nat. simpl. split; [lia |]. right.
    repeat split; [done | by rewrite <- app_assoc].
  - exists (S n). cbn [after_sleep after_poll record_call count_poll polls calls] in Hpolls, IH.
    replace (S (polls w) + n)%nat with (polls w + S n)%nat in IH by lia.
    rewrite <- !app_assoc in IH.
    split; [lia |].
    destruct o as [r|e]; [done |].
    destruct IH as [[? ->] | (? & ? & ->)]; [by left | by right].
Qed.

End PollLoop.

Lemma is_terminal_true status :
  is_terminal status = true <-> status ∈ terminal_statuses.
Proof.
  unfold is_terminal, terminal_statuses, str_eqb. simpl.
  rewrite !orb_true_iff, !bool_decide_eq_true, !elem_of_cons, elem_of_nil.
  intuition discriminate.
Qed.

Lemma wait_for_run_completion_loop project_client fuel thread_id run_id max_wait_time w :
  wait_for_run_completion project_client fuel thread_id run_id max_wait_time w
  = poll_loop project_client fuel thread_id run_id max_wait_time (now w) w.
Proof. done. Qed.

Lemma cancel_count_trace l thread_id run_id n :
  cancel_count (l ++ repeat (RunsGet thread_id run_id) n ++ [RunsCancel thread_id run_id])
  = S (cancel_count l).
Proof.
  unfold cancel_count. rewrite !List.filter_app, !length_app.
  assert (List.filter is_cancel (repeat (RunsGet thread_id run_id) n) = []) as ->.
  { induction n; [done | by simpl]. }
  simpl. lia.
Qed.

(** C2. [wait_for_run_completion] terminates on every sequence of polled
    runs: [max_wait_time + 2] iterations are enough, and no more polls than
    that are made; it returns a run whose status is one of completed,
    failed, cancelled and expired, or raises the timeout error, the elapsed
    time then exceeding [max_wait_time]. *)
Theorem wait_for_run_completion_terminates
    project_client thread_id run_id max_wait_time fuel w :
  (forall k, exists run, runs_get project_client k thread_id run_id = Ok run) ->
  (Z.to_nat max_wait_time + 2 <= fuel)%nat ->
  exists o w',
    wait_for_run_completion project_client fuel thread_id run_id max_wait_time w
      = Some (o, w') /\
    (polls w' - polls w <= Z.to_nat max_wait_time + 2)%nat /\
    ((exists run, o = Ret run /\ Run.status run ∈ terminal_statuses) \/
     (o = Raise (TimeoutError (timed_out_msg max_wait_time)) /\
      now w' - now w > max_wait_time)).
Proof.
  intros Hpolls Hfuel. rewrite wait_for_run_completion_loop.
  destruct (poll_loop_total project_client thread_id run_id max_wait_time (now w) fuel w)
    as (o & w' & Hrun); [lia |].
  exists o, w'. split; [done |].
  apply poll_loop_sound in Hrun.
  split.
  - apply poll_result_count in Hrun. lia.
  - destruct (poll_result_outcome _ _ _ _ _ _ _ _ Hrun) as (n & _ & Hout).
    destruct o as [run|e].
    + left. exists run. split; [done |]. apply is_terminal_true.
      by destruct Hout as (_ & ? & _).
    + right. destruct Hout as [[Hfail _] | (-> & Hlate & _)]; [| done].
      destruct (Hpolls (polls w + n)%nat) as [run Hok]. congruence.
Qed.

Lemma wait_for_run_completion_terminates_witness :
  exists o w',
    wait_for_run_completion
      (sample_remote [lit "queued"; lit "in_progress"] (sample_run (lit "completed") None)
                     (Ok tt) (Ok None) (Ok []))
      5 (lit "t1") (lit "r1") 3 session_world = Some (o, w') /\
    (polls w' - polls session_world <= Z.to_nat 3 + 2)%nat /\
    ((exists run, o = Ret run /\ Run.status run ∈ terminal_statuses) \/
     (o = Raise (TimeoutError (timed_out_msg 3)) /\ now w' - now session_world > 3)).
Proof.
  apply wait_for_run_completion_terminates.
  - intros k. simpl. destruct (_ !! k); eauto.
  - simpl. lia.
Defined.

(** ** The message handler *)

Section Handler.

Variable project_client : remote.
Variable agent_id : pystr.

Local Abbreviation on_error :=
  (fun e : exn => send (processing_error_msg (exn_str e))).

(** After the poll loop has returned a run, the handler renders it. *)
Lemma handle_message_returned fuel content w thread_id run w1 :
  run_returned project_client agent_id fuel content w thread_id run w1 ->
  handle_message project_client agent_id fuel content w
  = try_except (render_run project_client thread_id run) on_error w1.
Proof.
  intros (Hsession & Hne & Hmsg & created & Hcreate & Hwait).
  unfold handle_message, try_except, mbind, M_bind, user_session_get.
  rewrite Hsession. destruct thread_id as [|c t]; [done |].
  cbn [truthy negb from_option id].
  unfold agents_messages_create, agents_runs_create, remote_call.
  rewrite Hmsg, Hcreate. unfold submitted in Hwait. by rewrite Hwait.
Qed.

Lemma run_returned_frame fuel content w thread_id run w1 :
  run_returned project_client agent_id fuel content w thread_id run w1 ->
  sent w1 = sent w /\ user_session w1 = user_session w /\
  Run.status run ∈ terminal_statuses.
Proof.
  intros (_ & _ & _ & created & _ & Hwait).
  rewrite wait_for_run_completion_loop in Hwait.
  apply poll_loop_sound in Hwait.
  destruct (poll_result_frame _ _ _ _ _ _ _ _ Hwait) as (Hs & Hm & _).
  destruct (poll_result_outcome _ _ _ _ _ _ _ _ Hwait) as (n & _ & _ & Hterm & _).
  repeat split; try done. by apply is_terminal_true.
Qed.

Lemma error_message_of_default run :
  error_message_of run = default (lit "Unknown error") (last_error_message run).
Proof.
  unfold error_message_of, last_error_message.
  destruct (Run.last_error run) as [[d|]|]; try done.
  case_bool_decide as Hd; [| done]. by rewrite Hd, lookup_empty.
Qed.

Lemma render_run_failed thread_id run w :
  Run.status run = lit "failed" ->
  render_run project_client thread_id run w
  = Some (Ret tt, notified (failed_msg (error_message_of run)) w).
Proof. unfold render_run. by intros ->. Qed.

Lemma render_run_other thread_id run w :
  Run.status run <> lit "completed" -> Run.status run <> lit "failed" ->
  render_run project_client thread_id run w
  = Some (Ret tt, notified (status_msg (Run.formatted_status run)) w).
Proof.
  intros Hc Hf. unfold render_run, str_eqb.
  by rewrite !bool_decide_eq_false_2.
Qed.

Lemma nonempty_text_truthy x :
  truthy x = match nonempty_text x with Some _ => true | None => false end.
Proof. by destruct x as [[|c t]|]. Qed.

Lemma nonempty_text_some x text : nonempty_text x = Some text -> x = Some text.
Proof. destruct x as [[|c t]|]; simpl; congruence. Qed.

Lemma after_primary_frame thread_id w :
  let w' := after_primary project_client thread_id w in
  user_session w' = user_session w /\ sent w' = sent w /\
  now w' = now w /\ polls w' = polls w /\
  calls w' = calls w ++ [GetLastMessageTextByRole thread_id (lit "assistant")].
Proof.
  unfold after_primary.
  by destruct (messages_get_last_message_text_by_role _ _ _) as [[|s|[|]]|e].
Qed.

(** The primary path sends the text of the convenience call when that
    call succeeds with a text that is not empty. Otherwise it sends
    nothing: the call has failed, or answered nothing, or an empty text,
    or an object on which the formatter raises. *)
Lemma primary_path_spec thread_id w :
  primary_path project_client thread_id w
  = Some
      (match primary_text project_client thread_id with
       | Some text =>
           (Ret true,
            replied text
              (record_call (GetLastMessageTextByRole thread_id (lit "assistant")) w))
       | None => (Ret false, after_primary project_client thread_id w)
       end).
Proof.
  unfold primary_path, primary_text, after_primary, try_except, mbind, M_bind,
    agents_messages_get_last_message_text_by_role, remote_call.
  by destruct (messages_get_last_message_text_by_role _ _ _) as [[|[|c t]|[|]]|e].
Qed.

(** The fallback loop sends the text of the first qualifying message
    that has a non-empty one. *)
Lemma fallback_loop_spec run msgs w :
  fallback_loop run msgs w
  = Some
      (match fallback_text run msgs with
       | Some text => (Ret true, replied text w)
       | None => (Ret false, w)
       end).
Proof.
  unfold fallback_text. induction msgs as [|msg msgs IH]; [done |].
  cbn [fallback_loop List.filter]. fold (qualifies run msg).
  destruct (qualifies run msg); [| done].
  cbn [omap list_omap]. unfold message_text at 1.
  unfold mbind, M_bind, lift.
  destruct (extract_message_content_total msg) as [x ->].
  rewrite nonempty_text_truthy.
  destruct (nonempty_text x) as [text|] eqn:Hx; [| done].
  by rewrite (nonempty_text_some _ _ Hx).
Qed.

Lemma render_run_completed thread_id run w :
  Run.status run = lit "completed" ->
  render_run project_client thread_id run w
  = let w1 := record_call (GetLastMessageTextByRole thread_id (lit "assistant")) w in
    match primary_text project_client thread_id with
    | Some text => Some (Ret tt, replied text w1)
    | None =>
        let w2 := record_call (MessagesList thread_id)
                              (after_primary project_client thread_id w) in
        match messages_list project_client thread_id with
        | Ok msgs =>
            match fallback_text run msgs with
            | Some text => Some (Ret tt, replied text w2)
            | None => Some (Ret tt, notified no_response_msg w2)
            end
        | Fails e => Some (Raise e, w2)
        end
    end.
Proof.
  intros Hc. unfold render_run. rewrite Hc.
  replace (str_eqb (lit "completed") (lit "completed")) with true by done.
  unfold mbind at 1, M_bind at 1. rewrite primary_path_spec.
  destruct (primary_text project_client thread_id) as [text|]; [done |].
  cbv zeta. unfold mbind, M_bind, agents_messages_list, remote_call.
  destruct (messages_list project_client thread_id) as [msgs|e]; [| done].
  rewrite fallback_loop_spec. by destruct (fallback_text run msgs).
Qed.

(** C6. When the poll loop returns a run with status 'failed', the
    handler raises nothing and sends the failure notice. The notice
    contains "Unknown error" when the run has no [last_error] or its
    [last_error] has no message, and the message when there is one. *)
Theorem handle_message_failed fuel content w thread_id run w1 :
  run_returned project_client agent_id fuel content w thread_id run w1 ->
  Run.status run = lit "failed" ->
  exists w',
    handle_message project_client agent_id fuel content w = Some (Ret tt, w') /\
    sent w' = sent w ++ [failed_msg (error_message_of run)] /\
    (last_error_message run = None ->
       occurs_in (lit "Unknown error") (failed_msg (error_message_of run))) /\
    (forall message, last_error_message run = Some message ->
       occurs_in message (failed_msg (error_message_of run))).
Proof.
  intros Hret Hfailed.
  rewrite (handle_message_returned _ _ _ _ _ _ Hret).
  unfold try_except. rewrite render_run_failed by done.
  destruct (run_returned_frame _ _ _ _ _ _ Hret) as (Hsent & _).
  eexists. split; [done |]. simpl. rewrite Hsent. split; [done |].
  rewrite error_message_of_default.
  split; [intros -> | intros message ->];
    (eapply occurs_in_unlines; [| apply occurs_in_refl]); unfold failed_msg;
    find_line.
Qed.

(** C7, amended. When the poll loop returns a run whose status is
    neither 'completed' nor 'failed', that status is 'cancelled' or
    'expired', and the handler sends the unexpected-status notice, which
    contains the status as the f-string prints it: the status string
    itself when the status is a plain string, the name of the member when
    it is a member of a string enumeration. [render_run_other] gives the
    same notice for any other status. *)
Theorem handle_message_unexpected_status fuel content w thread_id run w1 :
  run_returned project_client agent_id fuel content w thread_id run w1 ->
  Run.status run <> lit "completed" ->
  Run.status run <> lit "failed" ->
  (Run.status run = lit "cancelled" \/ Run.status run = lit "expired") /\
  exists w',
    handle_message project_client agent_id fuel content w = Some (Ret tt, w') /\
    sent w' = sent w ++ [status_msg (Run.formatted_status run)] /\
    occurs_in (Run.formatted_status run) (status_msg (Run.formatted_status run)) /\
    (Run.formatted_status run = Run.status run ->
       occurs_in (Run.status run) (status_msg (Run.formatted_status run))).
Proof.
  intros Hret Hc Hf.
  rewrite (handle_message_returned _ _ _ _ _ _ Hret).
  unfold try_except. rewrite render_run_other by done.
  destruct (run_returned_frame _ _ _ _ _ _ Hret) as (Hsent & _ & Hterm).
  assert (occurs_in (Run.formatted_status run) (status_msg (Run.formatted_status run)))
    as Hshown.
  { eapply occurs_in_unlines; [| apply occurs_in_middle]. find_line. }
  split.
  - unfold terminal_statuses in Hterm.
    rewrite !elem_of_cons, elem_of_nil in Hterm. tauto.
  - eexists. split; [done |]. simpl. rewrite Hsent. split; [done |].
    split; [done |]. by intros <-.
Qed.

(** C10. Without a thread identifier in the session, the handler sends
    the session-error notice and does nothing else: no remote operation
    is issued, no status is polled, and the session store is unchanged. *)
Theorem handle_message_without_thread fuel content w :
  truthy (user_session w !! lit "thread_id") = false ->
  exists w',
    handle_message project_client agent_id fuel content w = Some (Ret tt, w') /\
    sent w' = sent w ++ [session_error_msg] /\
    calls w' = calls w /\ polls w' = polls w /\
    user_session w' = user_session w /\ now w' = now w.
Proof.
  intros Hno. unfold handle_message, try_except, mbind, M_bind, user_session_get.
  rewrite Hno. simpl. eexists. by split.
Qed.

(** The answer to a completed run that the poll loop has returned. *)
Lemma handle_message_completed_returned fuel content w thread_id run w1 msgs :
  run_returned project_client agent_id fuel content w thread_id run w1 ->
  Run.status run = lit "completed" ->
  (primary_text project_client thread_id = None ->
     messages_list project_client thread_id = Ok msgs) ->
  exists w',
    handle_message project_client agent_id fuel content w = Some (Ret tt, w') /\
    sent w' = sent w ++
      [match primary_text project_client thread_id with
       | Some text => format_agent_response (Some text)
       | None =>
           match fallback_text run msgs with
           | Some text => format_agent_response (Some text)
           | None => no_response_msg
           end
       end].
Proof.
  intros Hret Hc Hlist.
  rewrite (handle_message_returned _ _ _ _ _ _ Hret).
  unfold try_except. rewrite render_run_completed by done. cbv zeta.
  destruct (run_returned_frame _ _ _ _ _ _ Hret) as (Hsent & _).
  destruct (after_primary_frame thread_id w1) as (_ & Hprim & _).
  destruct (primary_text project_client thread_id) as [text|].
  - eexists. split; [done |]. simpl. by rewrite Hsent.
  - rewrite Hlist by done.
    destruct (fallback_text run msgs) as [text|];
      (eexists; split; [done |]); cbn [replied notified record_call sent];
      by rewrite Hprim, Hsent.
Qed.

(** When the listing itself fails, the handler sends the generic
    processing-error notice with the description of the failure. *)
Lemma handle_message_listing_fails fuel content w thread_id run w1 e :
  run_returned project_client agent_id fuel content w thread_id run w1 ->
  Run.status run = lit "completed" ->
  primary_text project_client thread_id = None ->
  messages_list project_client thread_id = Fails e ->
  exists w',
    handle_message project_client agent_id fuel content w = Some (Ret tt, w') /\
    sent w' = sent w ++ [processing_error_msg (exn_str e)].
Proof.
  intros Hret Hc Hprimary Hlist.
  rewrite (handle_message_returned _ _ _ _ _ _ Hret).
  unfold try_except. rewrite render_run_completed by done. cbv zeta.
  destruct (run_returned_frame _ _ _ _ _ _ Hret) as (Hsent & _).
  destruct (after_primary_frame thread_id w1) as (_ & Hprim & _).
  rewrite Hprimary, Hlist. eexists. split; [done |].
  cbn [notified record_call sent]. by rewrite Hprim, Hsent.
Qed.

End Handler.

(** C1, as the design document has it, fails when the first qualifying
    message has no text: the first assistant message not older than the run
    holds only an image part, and the handler sends the text of the next
    one instead of the no-response notice. *)
Lemma handle_message_fallback_passes_textless_message :
  let run := sample_run (lit "completed") None in
  let msgs := [assistant_message 101 [image_part];
               assistant_message 100 [text_part (lit "Hi there")]] in
  let project_client := sample_remote [lit "queued"] run (Ok tt) (Ok None) (Ok msgs) in
  first_qualifying run msgs = Some (assistant_message 101 [image_part]) /\
  extract_message_content (assistant_message 101 [image_part]) = Ret None /\
  exists w',
    handle_message project_client (lit "agent-1") 62 (lit "Hello") session_world
      = Some (Ret tt, w') /\
    sent w' = [agent_response_heading ++ lit "Hi there"].
Proof.
  cbv zeta. split; [by vm_compute |]. split; [by vm_compute |].
  eexists. split; [vm_compute; reflexivity |]. by vm_compute.
Qed.

Lemma handle_message_failed_witness :
  let run := sample_run (lit "failed") (Some (Some {[ lit "code" := lit "rate_limit" ]})) in
  let project_client := sample_remote [lit "queued"] run (Ok tt) (Ok None) (Ok []) in
  exists w',
    handle_message project_client (lit "agent-1") 62 (lit "Hello") session_world
      = Some (Ret tt, w') /\
    sent w' = sent session_world ++ [failed_msg (error_message_of run)] /\
    (last_error_message run = None ->
       occurs_in (lit "Unknown error") (failed_msg (error_message_of run))) /\
    (forall message, last_error_message run = Some message ->
       occurs_in message (failed_msg (error_message_of run))).
Proof.
  cbv zeta.
  eapply (handle_message_failed _ _ 62 (lit "Hello") session_world (lit "t1")).
  - split; [reflexivity |]. split; [discriminate |]. split; [reflexivity |].
    eexists. split; reflexivity.
  - reflexivity.
Defined.

(** C7, as the design document has it, fails for a status that is a
    member of a string enumeration: the run compares equal to 'expired',
    the notice shows RunStatus.EXPIRED and does not contain 'expired'. *)
Lemma handle_message_unexpected_status_shows_member_name :
  let run := Run.mk (lit "r1") (lit "expired") (lit "RunStatus.EXPIRED") 100 None in
  let project_client := sample_remote [lit "queued"] run (Ok tt) (Ok None) (Ok []) in
  Run.status run = lit "expired" /\
  (exists w',
     handle_message project_client (lit "agent-1") 62 (lit "Hello") session_world
       = Some (Ret tt, w') /\
     sent w' = [status_msg (lit "RunStatus.EXPIRED")]) /\
  contains (lit "expired") (status_msg (lit "RunStatus.EXPIRED")) = false.
Proof.
  cbv zeta. split; [reflexivity |]. split; [| by vm_compute].
  eexists. split; [vm_compute; reflexivity |]. by vm_compute.
Qed.

Lemma handle_message_unexpected_status_witness :
  let run := Run.mk (lit "r1") (lit "expired") (lit "RunStatus.EXPIRED") 100 None in
  let project_client := sample_remote [lit "queued"] run (Ok tt) (Ok None) (Ok []) in
  (Run.status run = lit "cancelled" \/ Run.status run = lit "expired") /\
  exists w',
    handle_message project_client (lit "agent-1") 62 (lit "Hello") session_world
      = Some (Ret tt, w') /\
    sent w' = sent session_world ++ [status_msg (Run.formatted_status run)] /\
    occurs_in (Run.formatted_status run) (status_msg (Run.formatted_status run)) /\
    (Run.formatted_status run = Run.status run ->
       occurs_in (Run.status run) (status_msg (Run.formatted_status run))).
Proof.
  cbv zeta.
  eapply (handle_message_unexpected_status _ _ 62 (lit "Hello") session_world (lit "t1")).
  - split; [reflexivity |]. split; [discriminate |]. split; [reflexivity |].
    eexists. split; reflexivity.
  - discriminate.
  - discriminate.
Defined.

Lemma handle_message_without_thread_witness :
  let project_client :=
    sample_remote [] (sample_run (lit "completed") None) (Ok tt) (Ok None) (Ok []) in
  exists w',
    handle_message project_client (lit "agent-1") 62 (lit "Hello") fresh_world
      = Some (Ret tt, w') /\
    sent w' = sent fresh_world ++ [session_error_msg] /\
    calls w' = calls fresh_world /\ polls w' = polls fresh_world /\
    user_session w' = user_session fresh_world /\ now w' = now fresh_world.
Proof.
  cbv zeta. apply handle_message_without_thread. reflexivity.
Defined.

(** ** Scenarios of the design document *)

(** A session starts and thread "t1" is stored; "Hello" is sent, the run
    goes queued, in_progress, completed, the convenience call answers
    "Hi there", and that text is sent behind the heading. *)
Example scenario_hello :
  let project_client :=
    sample_remote [lit "queued"; lit "in_progress"] (sample_run (lit "completed") None)
                  (Ok tt) (Ok (Some (lit "Hi there"))) (Ok []) in
  exists w1 w2,
    start project_client fresh_world = Some (Ret tt, w1) /\
    user_session w1 !! lit "thread_id" = Some (lit "t1") /\
    handle_message project_client (lit "agent-1") 62 (lit "Hello") w1 = Some (Ret tt, w2) /\
    sent w2 = [welcome_message; agent_response_heading ++ lit "Hi there"] /\
    polls w2 = 3%nat.
Proof.
  cbv zeta. eexists. eexists.
  split; [vm_compute; reflexivity |]. split; [by vm_compute |].
  split; [vm_compute; reflexivity |]. by vm_compute.
Qed.

(** The run never leaves in_progress: with the limit of 60 time-units the
    62nd poll, at time 61, finds the time exceeded; the run is cancelled
    once, although the cancel call fails, and the generic error notice
    with the timeout message is sent. *)
Example scenario_timeout :
  let project_client :=
    sample_remote [] (sample_run (lit "in_progress") None)
                  (Fails (RemoteError (lit "cannot cancel"))) (Ok None) (Ok []) in
  exists w',
    handle_message project_client (lit "agent-1") 62 (lit "Hello") session_world
      = Some (Ret tt, w') /\
    sent w' = [processing_error_msg (lit "Agent response timed out after 60 seconds")] /\
    polls w' = 62%nat /\ now w' = 61 /\ cancel_count (calls w') = 1%nat.
Proof.
  cbv zeta. eexists. split; [vm_compute; reflexivity |]. by vm_compute.
Qed.

(** * Further properties *)

(** ** The poll loop, poll by poll *)

Section PollRounds.

Variable project_client : remote.
Variables thread_id run_id : pystr.
Variable max_wait_time : Z.

Local Abbreviation rounds := (after_rounds project_client thread_id run_id).

Lemma rounds_time_head p n :
  rounds_time project_client p (S n)
  = Z.of_N (get_latency project_client p) + 1 + rounds_time project_client (S p) n.
Proof.
  induction n as [|n IH].
  - simpl. rewrite Nat.add_0_r. lia.
  - change (rounds_time project_client p (S (S n)))
      with (rounds_time project_client p (S n)
            + Z.of_N (get_latency project_client (p + S n)) + 1).
    rewrite IH. cbn [rounds_time].
    replace (S p + n)%nat with (p + S n)%nat by lia. lia.
Qed.

Lemma after_rounds_frame n : forall w,
  user_session (rounds n w) = user_session w /\
  sent (rounds n w) = sent w /\
  step_output (rounds n w) = step_output w /\
  polls (rounds n w) = (polls w + n)%nat /\
  now (rounds n w) = now w + rounds_time project_client (polls w) n /\
  calls (rounds n w) = calls w ++ repeat (RunsGet thread_id run_id) n.
Proof.
  induction n as [|n IH]; intros w.
  - simpl. rewrite Nat.add_0_r, Z.add_0_r, app_nil_r. done.
  - cbn [after_rounds].
    destruct (IH (after_sleep (after_poll project_client thread_id run_id w)))
      as (-> & -> & -> & -> & -> & ->).
    rewrite rounds_time_head.
    cbn [after_sleep after_poll record_call count_poll
         user_session sent step_output polls now calls].
    repeat split; try done; try lia.
    rewrite <- app_assoc. done.
Qed.

(** Rounds in which the run is still going, in time, are passed through. *)
Lemma poll_loop_rounds start_time n : forall fuel w,
  (forall k, (k < n)%nat ->
     exists run,
       runs_get project_client (polls w + k) thread_id run_id = Ok run /\
       is_terminal (Run.status run) = false /\
       now w - start_time + elapsed_after project_client (polls w) k <= max_wait_time) ->
  poll_loop project_client (n + fuel) thread_id run_id max_wait_time start_time w
  = poll_loop project_client fuel thread_id run_id max_wait_time start_time (rounds n w).
Proof.
  induction n as [|n IH]; intros fuel w Hpending; [done |].
  destruct (Hpending 0%nat) as (run & Hget & Hterm & Htime); [lia |].
  rewrite Nat.add_0_r in Hget. unfold elapsed_after in Htime.
  rewrite Nat.add_0_r in Htime. cbn [rounds_time] in Htime.
  change (S n + fuel)%nat with (S (n + fuel)).
  rewrite poll_loop_step, Hget, Hterm.
  replace (now (after_poll project_client thread_id run_id w) - start_time >? max_wait_time)
    with false by (simpl; lia).
  cbn [after_rounds]. apply IH. intros k Hk.
  destruct (Hpending (S k)) as (r & Hr & Hrt & Hrtime); [lia |].
  exists r. cbn [after_sleep after_poll record_call count_poll polls now].
  replace (S (polls w) + k)%nat with (polls w + S k)%nat by lia.
  repeat split; try done.
  unfold elapsed_after in *. rewrite rounds_time_head in Hrtime.
  replace (S (polls w) + k)%nat with (polls w + S k)%nat by lia. lia.
Qed.

Lemma wait_for_run_completion_rounds n fuel w :
  (forall k, (k < n)%nat -> pending project_client thread_id run_id max_wait_time w k) ->
  wait_for_run_completion project_client (n + fuel) thread_id run_id max_wait_time w
  = poll_loop project_client fuel thread_id run_id max_wait_time (now w) (rounds n w).
Proof.
  intros Hpending. rewrite wait_for_run_completion_loop.
  apply poll_loop_rounds. intros k Hk.
  destruct (Hpending k Hk) as (run & ? & ? & ?). exists run.
  repeat split; try done. lia.
Qed.

(** The world in which poll number [n] of the loop has answered. *)
Lemma decisive_poll_world n w :
  let w' := after_poll project_client thread_id run_id (rounds n w) in
  user_session w' = user_session w /\ sent w' = sent w /\
  step_output w' = step_output w /\
  polls w' = (polls w + S n)%nat /\
  now w' = now w + elapsed_after project_client (polls w) n /\
  calls w' = calls w ++ repeat (RunsGet thread_id run_id) (S n).
Proof.
  destruct (after_rounds_frame n w) as (Hs & Hm & Ho & Hp & Hn & Hc).
  cbn [after_poll record_call count_poll user_session sent step_output polls now calls].
  rewrite Hs, Hm, Ho, Hp, Hn, Hc. unfold elapsed_after.
  repeat split; try done; try lia.
  rewrite <- app_assoc. f_equal.
  change [RunsGet thread_id run_id] with (repeat (RunsGet thread_id run_id) 1).
  rewrite <- repeat_app. f_equal. lia.
Qed.

(** The poll that decides: after [n] rounds in which the run was still
    going, in time, the loop does its iteration number [n]. *)
Lemma wait_for_run_completion_decisive n fuel w :
  (n < fuel)%nat ->
  (forall k, (k < n)%nat -> pending project_client thread_id run_id max_wait_time w k) ->
  wait_for_run_completion project_client fuel thread_id run_id max_wait_time w
  = let w' := after_poll project_client thread_id run_id (rounds n w) in
    match runs_get project_client (polls w + n) thread_id run_id with
    | Fails e => Some (Raise e, w')
    | Ok run =>
        if is_terminal (Run.status run) then Some (Ret run, w')
        else if elapsed_after project_client (polls w) n >? max_wait_time
        then Some (Raise (TimeoutError (timed_out_msg max_wait_time)),
                   record_call (RunsCancel thread_id run_id) w')
        else poll_loop project_client (fuel - S n) thread_id run_id max_wait_time
                       (now w) (after_sleep w')
    end.
Proof.
  intros Hfuel Hpending.
  replace fuel with (n + S (fuel - S n))%nat at 1 by lia.
  rewrite wait_for_run_completion_rounds by done.
  rewrite poll_loop_step.
  destruct (after_rounds_frame n w) as (_ & _ & _ & -> & _).
  destruct (decisive_poll_world n w) as (_ & _ & _ & _ & -> & _).
  cbv zeta.
  by replace (now w + elapsed_after project_client (polls w) n - now w)
    with (elapsed_after project_client (polls w) n) by lia.
Qed.

Lemma cancel_count_polls l n :
  cancel_count (l ++ repeat (RunsGet thread_id run_id) n) = cancel_count l.
Proof.
  unfold cancel_count. rewrite List.filter_app, length_app.
  assert (List.filter is_cancel (repeat (RunsGet thread_id run_id) n) = []) as ->;
    [| simpl; lia].
  induction n; [done | by simpl].
Qed.

(** X1. [wait_for_run_completion] returns the run of the first poll that
    finds a terminal status, all polls before it having found the run
    still going, in time. That poll is not subject to the time limit: a
    terminal status is returned however late it is found. The loop has
    then made [n + 1] polls and issued nothing else. *)
Theorem wait_for_run_completion_returns_first_terminal n fuel w run :
  (n < fuel)%nat ->
  (forall k, (k < n)%nat -> pending project_client thread_id run_id max_wait_time w k) ->
  runs_get project_client (polls w + n) thread_id run_id = Ok run ->
  is_terminal (Run.status run) = true ->
  exists w',
    wait_for_run_completion project_client fuel thread_id run_id max_wait_time w
      = Some (Ret run, w') /\
    polls w' = (polls w + S n)%nat /\
    now w' = now w + elapsed_after project_client (polls w) n /\
    calls w' = calls w ++ repeat (RunsGet thread_id run_id) (S n).
Proof.
  intros Hfuel Hpending Hget Hterm.
  rewrite (wait_for_run_completion_decisive n) by done. rewrite Hget, Hterm.
  destruct (decisive_poll_world n w) as (_ & _ & _ & ? & ? & ?).
  eexists. by split.
Qed.

(** X2. When a poll raises, all polls before it having found the run
    still going, in time, [wait_for_run_completion] raises that exception;
    the run is not cancelled. *)
Theorem wait_for_run_completion_poll_fails n fuel w e :
  (n < fuel)%nat ->
  (forall k, (k < n)%nat -> pending project_client thread_id run_id max_wait_time w k) ->
  runs_get project_client (polls w + n) thread_id run_id = Fails e ->
  exists w',
    wait_for_run_completion project_client fuel thread_id run_id max_wait_time w
      = Some (Raise e, w') /\
    polls w' = (polls w + S n)%nat /\
    calls w' = calls w ++ repeat (RunsGet thread_id run_id) (S n) /\
    cancel_count (calls w') = cancel_count (calls w).
Proof.
  intros Hfuel Hpending Hget.
  rewrite (wait_for_run_completion_decisive n) by done. rewrite Hget.
  destruct (decisive_poll_world n w) as (_ & _ & _ & ? & ? & Hc).
  eexists. repeat split; try done.
  rewrite Hc. apply cancel_count_polls.
Qed.

(** X3. The timeout is raised at the first poll that finds the run still
    going later than [max_wait_time] after the start: the loop has then
    made [n + 1] polls, it issues the one cancel call, and the time is that
    of this poll, no further sleep being made. *)
Theorem wait_for_run_completion_times_out_at n fuel w run :
  (n < fuel)%nat ->
  (forall k, (k < n)%nat -> pending project_client thread_id run_id max_wait_time w k) ->
  runs_get project_client (polls w + n) thread_id run_id = Ok run ->
  is_terminal (Run.status run) = false ->
  elapsed_after project_client (polls w) n > max_wait_time ->
  exists w',
    wait_for_run_completion project_client fuel thread_id run_id max_wait_time w
      = Some (Raise (TimeoutError (timed_out_msg max_wait_time)), w') /\
    polls w' = (polls w + S n)%nat /\
    now w' = now w + elapsed_after project_client (polls w) n /\
    calls w' = calls w ++ repeat (RunsGet thread_id run_id) (S n)
                       ++ [RunsCancel thread_id run_id].
Proof.
  intros Hfuel Hpending Hget Hterm Hlate.
  rewrite (wait_for_run_completion_decisive n) by done. rewrite Hget, Hterm.
  replace (elapsed_after project_client (polls w) n >? max_wait_time) with true by lia.
  destruct (decisive_poll_world n w) as (_ & _ & _ & Hpolls & Hnow & Hcalls).
  eexists. split; [done |].
  cbn [record_call polls now calls]. rewrite Hcalls, <- app_assoc. done.
Qed.

(** C3, amended. The polls made while the elapsed time is within
    [max_wait_time] having found no terminal status, the first poll made
    after [max_wait_time] has elapsed decides. When it finds no terminal
    status either, [wait_for_run_completion] raises the timeout error and
    the cancel call is issued exactly once, after the polls, whether the
    cancel call succeeds or fails. When it finds a terminal status, the run
    is returned and nothing is cancelled. *)
Theorem wait_for_run_completion_timeout n fuel w run :
  (n < fuel)%nat ->
  (forall k, (k < n)%nat -> pending project_client thread_id run_id max_wait_time w k) ->
  runs_get project_client (polls w + n) thread_id run_id = Ok run ->
  elapsed_after project_client (polls w) n > max_wait_time ->
  (is_terminal (Run.status run) = false ->
   exists w',
     wait_for_run_completion project_client fuel thread_id run_id max_wait_time w
       = Some (Raise (TimeoutError (timed_out_msg max_wait_time)), w') /\
     calls w' = calls w ++ repeat (RunsGet thread_id run_id) (S n)
                        ++ [RunsCancel thread_id run_id] /\
     cancel_count (calls w') = S (cancel_count (calls w))) /\
  (is_terminal (Run.status run) = true ->
   exists w',
     wait_for_run_completion project_client fuel thread_id run_id max_wait_time w
       = Some (Ret run, w') /\
     cancel_count (calls w') = cancel_count (calls w)).
Proof.
  intros Hfuel Hpending Hget Hlate.
  rewrite (wait_for_run_completion_decisive n) by done. rewrite Hget.
  destruct (decisive_poll_world n w) as (_ & _ & _ & _ & _ & Hcalls).
  split; intros ->.
  - replace (elapsed_after project_client (polls w) n >? max_wait_time) with true by lia.
    eexists. split; [done |].
    cbn [record_call calls]. rewrite Hcalls, <- app_assoc.
    split; [done |]. apply cancel_count_trace.
  - eexists. split; [done |]. rewrite Hcalls. apply cancel_count_polls.
Qed.

End PollRounds.

(** X5. What [wait_for_run_completion] does and does not do, however it
    ends: it sends no chat message and leaves the session store and the
    step output alone, the clock does not go back, it polls at least once,
    and the remote operations it issues are its polls of the given thread
    and run, followed by one cancel call only when it raises the timeout
    error. *)
Theorem wait_for_run_completion_effects
    project_client thread_id run_id max_wait_time fuel w o w' :
  wait_for_run_completion project_client fuel thread_id run_id max_wait_time w
    = Some (o, w') ->
  user_session w' = user_session w /\ sent w' = sent w /\
  step_output w' = step_output w /\ now w <= now w' /\
  exists n,
    polls w' = S (polls w + n) /\
    (calls w' = calls w ++ repeat (RunsGet thread_id run_id) (S n) \/
     (o = Raise (TimeoutError (timed_out_msg max_wait_time)) /\
      calls w' = calls w ++ repeat (RunsGet thread_id run_id) (S n)
                         ++ [RunsCancel thread_id run_id])).
Proof.
  rewrite wait_for_run_completion_loop. intros Hrun%poll_loop_sound.
  destruct (poll_result_frame _ _ _ _ _ _ _ _ Hrun) as (Hs & Hm & Ho & Hn & _).
  destruct (poll_result_outcome _ _ _ _ _ _ _ _ Hrun) as (n & Hp & Hout).
  repeat split; try done. exists n. split; [done |].
  destruct o as [run|e].
  - left. by destruct Hout as (_ & _ & ?).
  - destruct Hout as [[_ ?] | (-> & _ & ?)]; [by left | by right].
Qed.

Lemma wait_for_run_completion_effects_witness :
  exists o w' n,
    wait_for_run_completion
      (sample_remote [lit "queued"] (sample_run (lit "in_progress") None)
                     (Ok tt) (Ok None) (Ok []))
      5 (lit "t1") (lit "r1") 2 session_world = Some (o, w') /\
    polls w' = S (polls session_world + n) /\
    sent w' = sent session_world.
Proof.
  eexists. eexists.
  edestruct (wait_for_run_completion_effects
               (sample_remote [lit "queued"] (sample_run (lit "in_progress") None)
                              (Ok tt) (Ok None) (Ok []))
               (lit "t1") (lit "r1") 2 5 session_world)
    as (_ & Hsent & _ & _ & n & Hpolls & _).
  - vm_compute. reflexivity.
  - exists n. split; [reflexivity |]. split; [exact Hpolls | exact Hsent].
Defined.

(** ** The message handler, path by path *)

Section HandlerPaths.

Variable project_client : remote.
Variable agent_id : pystr.

Local Abbreviation on_error :=
  (fun e : exn => send (processing_error_msg (exn_str e))).

(** The handler, step by step. *)
Lemma handle_message_steps fuel content w :
  handle_message project_client agent_id fuel content w
  = match nonempty_text (user_session w !! lit "thread_id") with
    | None => Some (Ret tt, notified session_error_msg w)
    | Some thread_id =>
        let w1 := record_call (MessagesCreate thread_id (lit "user") content) w in
        match messages_create project_client thread_id (lit "user") content with
        | Fails e => Some (Ret tt, notified (processing_error_msg (exn_str e)) w1)
        | Ok _ =>
            match runs_create project_client thread_id agent_id with
            | Fails e =>
                Some (Ret tt,
                      notified (processing_error_msg (exn_str e))
                               (submitted agent_id thread_id content w))
            | Ok created =>
                match wait_for_run_completion project_client fuel thread_id
                        (Run.id created) 60 (submitted agent_id thread_id content w) with
                | Some (Ret run, w3) =>
                    try_except (render_run project_client thread_id run) on_error w3
                | Some (Raise e, w3) =>
                    Some (Ret tt, notified (processing_error_msg (exn_str e)) w3)
                | None => None
                end
            end
        end
    end.
Proof.
  unfold handle_message, try_except, mbind, M_bind, user_session_get.
  destruct (user_session w !! lit "thread_id") as [[|c t]|]; try done.
  cbn [truthy negb from_option id nonempty_text].
  unfold agents_messages_create, agents_runs_create, remote_call, submitted.
  destruct (messages_create project_client (c :: t) (lit "user") content); [| done].
  destruct (runs_create project_client (c :: t) agent_id) as [created|e]; [| done].
  by destruct (wait_for_run_completion _ _ _ _ _ _) as [[[run|e] w3]|].
Qed.

Lemma occurs_in_processing_error_msg e :
  occurs_in e (processing_error_msg e).
Proof.
  eapply occurs_in_unlines; [| apply occurs_in_refl].
  unfold processing_error_msg. find_line.
Qed.

Lemma cancel_count_other c l :
  is_cancel c = false -> cancel_count (l ++ [c]) = cancel_count l.
Proof.
  intros Hc. unfold cancel_count.
  rewrite List.filter_app, length_app. simpl. rewrite Hc. simpl. lia.
Qed.

Lemma after_primary_session thread_id w :
  user_session (after_primary project_client thread_id w) = user_session w.
Proof. by destruct (after_primary_frame project_client thread_id w) as (? & _). Qed.

Lemma after_primary_sent thread_id w :
  sent (after_primary project_client thread_id w) = sent w.
Proof. by destruct (after_primary_frame project_client thread_id w) as (_ & ? & _). Qed.

Lemma after_primary_polls thread_id w :
  polls (after_primary project_client thread_id w) = polls w.
Proof.
  by destruct (after_primary_frame project_client thread_id w) as (_ & _ & _ & ? & _).
Qed.

Lemma after_primary_calls thread_id w :
  calls (after_primary project_client thread_id w)
  = calls w ++ [GetLastMessageTextByRole thread_id (lit "assistant")].
Proof.
  by destruct (after_primary_frame project_client thread_id w) as (_ & _ & _ & _ & ?).
Qed.

Ltac world_fields :=
  cbn [notified replied record_call submitted
       user_session sent step_output now polls calls];
  rewrite ?after_primary_session, ?after_primary_sent, ?after_primary_polls,
    ?after_primary_calls.

(** Rendering a run sends one message, or raises having sent none; it
    polls nothing, cancels nothing and leaves the session store alone. *)
Lemma render_run_answers thread_id run w :
  exists o w',
    render_run project_client thread_id run w = Some (o, w') /\
    user_session w' = user_session w /\ polls w' = polls w /\
    cancel_count (calls w') = cancel_count (calls w) /\
    ((o = Ret tt /\ exists m, sent w' = sent w ++ [m]) \/
     (exists e, o = Raise e /\ sent w' = sent w)).
Proof.
  destruct (decide (Run.status run = lit "completed")) as [Hc|Hc].
  - rewrite render_run_completed by done. cbv zeta.
    destruct (primary_text project_client thread_id) as [text|].
    + eexists _, _. split; [done |]. world_fields.
      rewrite cancel_count_other by done.
      repeat split; try done. left. eauto.
    + destruct (messages_list project_client thread_id) as [msgs|e].
      * destruct (fallback_text run msgs) as [text|];
          (eexists _, _; split; [done |]); world_fields;
          rewrite !cancel_count_other by done;
          repeat split; try done; left; eauto.
      * eexists _, _. split; [done |]. world_fields.
        rewrite !cancel_count_other by done.
        repeat split; try done. right. eauto.
  - destruct (decide (Run.status run = lit "failed")) as [Hf|Hf].
    + rewrite render_run_failed by done.
      eexists _, _. split; [done |]. world_fields.
      repeat split; try done. left. eauto.
    + rewrite render_run_other by done.
      eexists _, _. split; [done |]. world_fields.
      repeat split; try done. left. eauto.
Qed.

(** X6. Every call of [handle_message] ends, raises nothing and sends
    exactly one message to the chat, whatever the remote service answers:
    62 iterations of the poll loop are always enough. The session store is
    left as it was, and at most one cancel call is issued. *)
Theorem handle_message_always_answers fuel content w :
  (62 <= fuel)%nat ->
  exists w' m,
    handle_message project_client agent_id fuel content w = Some (Ret tt, w') /\
    sent w' = sent w ++ [m] /\
    user_session w' = user_session w /\
    (cancel_count (calls w') <= S (cancel_count (calls w)))%nat.
Proof.
  intros Hfuel. rewrite handle_message_steps.
  destruct (nonempty_text (user_session w !! lit "thread_id")) as [thread_id|].
  2: { eexists _, _. split; [done |]. world_fields. split_and!; try done. lia. }
  cbv zeta.
  destruct (messages_create project_client thread_id (lit "user") content).
  2: { eexists _, _. split; [done |]. world_fields.
       rewrite cancel_count_other by done. split_and!; try done. lia. }
  destruct (runs_create project_client thread_id agent_id) as [created|e].
  2: { eexists _, _. split; [done |]. world_fields.
       rewrite !cancel_count_other by done. split_and!; try done. lia. }
  remember (submitted agent_id thread_id content w) as w2 eqn:Hw2.
  assert (user_session w2 = user_session w /\ sent w2 = sent w /\
          cancel_count (calls w2) = cancel_count (calls w)) as (Hs2 & Hm2 & Hc2).
  { rewrite Hw2. world_fields. by rewrite !cancel_count_other. }
  clear Hw2.
  destruct (poll_loop_total project_client thread_id (Run.id created) 60 (now w2) fuel w2)
    as (o & w3 & Hrun); [lia |].
  rewrite wait_for_run_completion_loop, Hrun.
  apply poll_loop_sound in Hrun.
  destruct (poll_result_frame _ _ _ _ _ _ _ _ Hrun) as (Hs3 & Hm3 & _).
  destruct (poll_result_outcome _ _ _ _ _ _ _ _ Hrun) as (n & _ & Hout).
  destruct o as [run|e].
  - destruct Hout as (_ & _ & Hcalls).
    assert (cancel_count (calls w3) = cancel_count (calls w)) as Hc3.
    { by rewrite Hcalls, cancel_count_polls. }
    destruct (render_run_answers thread_id run w3)
      as (o & w4 & Hrender & Hs4 & _ & Hc4 & [[-> [m Hm4]] | [e [-> Hm4]]]);
      unfold try_except; rewrite Hrender.
    + exists w4, m. split_and!; try congruence. rewrite Hc4, Hc3. lia.
    + exists (notified (processing_error_msg (exn_str e)) w4),
        (processing_error_msg (exn_str e)).
      split; [done |]. world_fields.
      split_and!; try congruence. rewrite Hc4, Hc3. lia.
  - exists (notified (processing_error_msg (exn_str e)) w3),
      (processing_error_msg (exn_str e)).
    split; [done |]. world_fields.
    split_and!; try congruence.
    destruct Hout as [[_ ->] | (_ & _ & ->)].
    + rewrite cancel_count_polls, Hc2. lia.
    + rewrite cancel_count_trace, Hc2. lia.
Qed.

(** X7. A failure to submit is reported and nothing further is tried: when
    the user message cannot be created, no run is created and nothing is
    polled; when the run cannot be created, the user message has already
    been posted and stays so, and nothing is polled. In both cases the
    generic error notice carries the description of the exception. *)
Theorem handle_message_submission_fails fuel content w (thread_id : pystr) :
  user_session w !! lit "thread_id" = Some thread_id ->
  thread_id <> [] ->
  (forall e,
     messages_create project_client thread_id (lit "user") content = Fails e ->
     exists w',
       handle_message project_client agent_id fuel content w = Some (Ret tt, w') /\
       sent w' = sent w ++ [processing_error_msg (exn_str e)] /\
       calls w' = calls w ++ [MessagesCreate thread_id (lit "user") content] /\
       polls w' = polls w) /\
  (forall e,
     messages_create project_client thread_id (lit "user") content = Ok tt ->
     runs_create project_client thread_id agent_id = Fails e ->
     exists w',
       handle_message project_client agent_id fuel content w = Some (Ret tt, w') /\
       sent w' = sent w ++ [processing_error_msg (exn_str e)] /\
       calls w' = calls w ++ [MessagesCreate thread_id (lit "user") content;
                              RunsCreate thread_id agent_id] /\
       polls w' = polls w).
Proof.
  intros Hsession Hne.
  assert (nonempty_text (user_session w !! lit "thread_id") = Some thread_id) as Htid.
  { rewrite Hsession. by destruct thread_id. }
  split; intros e.
  - intros Hmsg. rewrite handle_message_steps, Htid. cbv zeta. rewrite Hmsg.
    eexists. split; [done |]. world_fields. done.
  - intros Hmsg Hcreate. rewrite handle_message_steps, Htid. cbv zeta.
    rewrite Hmsg, Hcreate.
    eexists. split; [done |]. world_fields. by rewrite <- app_assoc.
Qed.

(** X8. Whatever exception comes out of the poll loop, a failed poll as
    much as the timeout, the handler catches it and sends the generic
    error notice with the description of the exception; it issues no
    remote operation after the loop. *)
Theorem handle_message_loop_raises fuel content w (thread_id : pystr) created e w1 :
  user_session w !! lit "thread_id" = Some thread_id ->
  thread_id <> [] ->
  messages_create project_client thread_id (lit "user") content = Ok tt ->
  runs_create project_client thread_id agent_id = Ok created ->
  wait_for_run_completion project_client fuel thread_id (Run.id created) 60
    (submitted agent_id thread_id content w) = Some (Raise e, w1) ->
  exists w',
    handle_message project_client agent_id fuel content w = Some (Ret tt, w') /\
    sent w' = sent w ++ [processing_error_msg (exn_str e)] /\
    occurs_in (exn_str e) (processing_error_msg (exn_str e)) /\
    calls w' = calls w1.
Proof.
  intros Hsession Hne Hmsg Hcreate Hwait.
  assert (nonempty_text (user_session w !! lit "thread_id") = Some thread_id) as Htid.
  { rewrite Hsession. by destruct thread_id. }
  rewrite handle_message_steps, Htid. cbv zeta. rewrite Hmsg, Hcreate, Hwait.
  rewrite wait_for_run_completion_loop in Hwait. apply poll_loop_sound in Hwait.
  destruct (poll_result_frame _ _ _ _ _ _ _ _ Hwait) as (_ & Hm & _).
  eexists. split; [done |]. world_fields. rewrite Hm.
  split_and!; try done. apply occurs_in_processing_error_msg.
Qed.

(** X9. A run that never reaches a terminal status is answered with the
    generic error notice that says "Agent response timed out after 60
    seconds", and is cancelled exactly once; 62 iterations of the poll
    loop are enough, whatever time the polls take. *)
Theorem handle_message_times_out fuel content w (thread_id : pystr) created :
  user_session w !! lit "thread_id" = Some thread_id ->
  thread_id <> [] ->
  messages_create project_client thread_id (lit "user") content = Ok tt ->
  runs_create project_client thread_id agent_id = Ok created ->
  (forall k, (polls w <= k)%nat ->
     exists run,
       runs_get project_client k thread_id (Run.id created) = Ok run /\
       is_terminal (Run.status run) = false) ->
  (62 <= fuel)%nat ->
  exists w',
    handle_message project_client agent_id fuel content w = Some (Ret tt, w') /\
    sent w' = sent w ++
      [processing_error_msg (lit "Agent response timed out after 60 seconds")] /\
    cancel_count (calls w') = S (cancel_count (calls w)).
Proof.
  intros Hsession Hne Hmsg Hcreate Hgoing Hfuel.
  assert (nonempty_text (user_session w !! lit "thread_id") = Some thread_id) as Htid.
  { rewrite Hsession. by destruct thread_id. }
  rewrite handle_message_steps, Htid. cbv zeta. rewrite Hmsg, Hcreate.
  remember (submitted agent_id thread_id content w) as w2 eqn:Hw2.
  assert (sent w2 = sent w /\ polls w2 = polls w /\
          cancel_count (calls w2) = cancel_count (calls w)) as (Hm2 & Hp2 & Hc2).
  { rewrite Hw2. world_fields. by rewrite !cancel_count_other. }
  clear Hw2.
  destruct (poll_loop_total project_client thread_id (Run.id created) 60 (now w2) fuel w2)
    as (o & w3 & Hrun); [lia |].
  rewrite wait_for_run_completion_loop, Hrun.
  apply poll_loop_sound in Hrun.
  destruct (poll_result_frame _ _ _ _ _ _ _ _ Hrun) as (_ & Hm3 & _).
  destruct (poll_result_outcome _ _ _ _ _ _ _ _ Hrun) as (n & _ & Hout).
  destruct (Hgoing (polls w2 + n)%nat) as (run & Hget & Hterm); [lia |].
  destruct o as [r|e].
  - destruct Hout as (Hr & Hrt & _). congruence.
  - destruct Hout as [[Hfail _] | (-> & _ & Hcalls)]; [congruence |].
    eexists. split; [done |]. world_fields.
    split; [by rewrite Hm3, Hm2 |].
    by rewrite Hcalls, cancel_count_trace, Hc2.
Qed.

(** X10. The messages of the thread are fetched for a completed run only,
    and no more than needed: after the poll loop has returned a run, the
    handler issues the convenience call when the status is 'completed', the
    listing call when moreover the convenience call gave no text, and no
    remote operation for any other status. It polls no more. *)
Theorem handle_message_fetches fuel content w thread_id run w1 :
  run_returned project_client agent_id fuel content w thread_id run w1 ->
  exists w',
    handle_message project_client agent_id fuel content w = Some (Ret tt, w') /\
    calls w' = calls w1 ++
      (if bool_decide (Run.status run = lit "completed") then
         GetLastMessageTextByRole thread_id (lit "assistant")
         :: match primary_text project_client thread_id with
            | Some _ => []
            | None => [MessagesList thread_id]
            end
       else []) /\
    polls w' = polls w1.
Proof.
  intros Hret. rewrite (handle_message_returned _ _ _ _ _ _ _ _ Hret).
  unfold try_except. case_bool_decide as Hc.
  - rewrite render_run_completed by done. cbv zeta.
    destruct (primary_text project_client thread_id) as [text|].
    + eexists. split; [done |]. by world_fields.
    + destruct (messages_list project_client thread_id) as [msgs|e].
      * destruct (fallback_text run msgs) as [text|];
          (eexists; split; [done |]); world_fields; by rewrite <- app_assoc.
      * eexists. split; [done |]. world_fields. by rewrite <- app_assoc.
  - rewrite app_nil_r.
    destruct (decide (Run.status run = lit "failed")) as [Hf|Hf].
    + rewrite render_run_failed by done. eexists. split; [done |]. by world_fields.
    + rewrite render_run_other by done. eexists. split; [done |]. by world_fields.
Qed.

Lemma fallback_text_first run skipped msg rest text :
  Forall (fun m => qualifies run m = false \/ message_text m = None) skipped ->
  qualifies run msg = true ->
  message_text msg = Some text ->
  fallback_text run (skipped ++ msg :: rest) = Some text.
Proof.
  intros Hskipped Hq Ht. unfold fallback_text.
  induction Hskipped as [|m skipped [Hm | Hm] _ IH]; cbn [app List.filter].
  - rewrite Hq. cbn [omap list_omap]. by rewrite Ht.
  - by rewrite Hm.
  - destruct (qualifies run m); [| done]. cbn [omap list_omap]. by rewrite Hm.
Qed.

(** X11. A text that is whitespace only counts as a text in the fallback:
    when the first assistant message of this run that has a text has a
    text of whitespace only, the loop stops at it and the handler sends
    the "Agent Response" heading with nothing under it, whatever the
    messages after it hold. *)
Theorem handle_message_whitespace_message
    fuel content w thread_id run w1 skipped msg rest text :
  run_returned project_client agent_id fuel content w thread_id run w1 ->
  Run.status run = lit "completed" ->
  primary_text project_client thread_id = None ->
  messages_list project_client thread_id = Ok (skipped ++ msg :: rest) ->
  Forall (fun m => qualifies run m = false \/ message_text m = None) skipped ->
  qualifies run msg = true ->
  extract_message_content msg = Ret (Some text) ->
  text <> [] -> strip text = [] ->
  exists w',
    handle_message project_client agent_id fuel content w = Some (Ret tt, w') /\
    sent w' = sent w ++ [agent_response_heading].
Proof.
  intros Hret Hc Hprimary Hlist Hskipped Hq Hx Hne Hblank.
  rewrite (handle_message_returned _ _ _ _ _ _ _ _ Hret).
  unfold try_except. rewrite render_run_completed by done. cbv zeta.
  rewrite Hprimary, Hlist.
  rewrite (fallback_text_first run skipped msg rest text); try done.
  2: { unfold message_text. rewrite Hx. by destruct text. }
  destruct (run_returned_frame _ _ _ _ _ _ _ _ Hret) as (Hsent & _).
  eexists. split; [done |]. world_fields. rewrite Hsent.
  rewrite format_agent_response_whitespace_only; [done |].
  by exists text.
Qed.

(** The first remote operation of the handler in a session with a thread
    is the posting of the user's text to that thread. *)
Lemma handle_message_posts_first fuel content w (thread_id : pystr) :
  user_session w !! lit "thread_id" = Some thread_id ->
  thread_id <> [] ->
  (62 <= fuel)%nat ->
  exists w' rest,
    handle_message project_client agent_id fuel content w = Some (Ret tt, w') /\
    calls w' = calls w ++ MessagesCreate thread_id (lit "user") content :: rest.
Proof.
  intros Hsession Hne Hfuel.
  assert (nonempty_text (user_session w !! lit "thread_id") = Some thread_id) as Htid.
  { rewrite Hsession. by destruct thread_id. }
  rewrite handle_message_steps, Htid. cbv zeta.
  destruct (messages_create project_client thread_id (lit "user") content).
  2: { eexists _, []. split; [done |]. by world_fields. }
  destruct (runs_create project_client thread_id agent_id) as [created|e].
  2: { eexists _, [_]. split; [done |]. world_fields. by rewrite <- app_assoc. }
  remember (submitted agent_id thread_id content w) as w2 eqn:Hw2.
  assert (calls w2 = calls w ++ [MessagesCreate thread_id (lit "user") content;
                                 RunsCreate thread_id agent_id]) as Hc2.
  { rewrite Hw2. world_fields. by rewrite <- app_assoc. }
  clear Hw2.
  destruct (poll_loop_total project_client thread_id (Run.id created) 60 (now w2) fuel w2)
    as (o & w3 & Hrun); [lia |].
  rewrite wait_for_run_completion_loop, Hrun.
  apply poll_loop_sound in Hrun.
  destruct (poll_result_outcome _ _ _ _ _ _ _ _ Hrun) as (n & _ & Hout).
  assert (exists more, calls w3 = calls w2 ++ more) as [more Hc3].
  { destruct o as [run|e].
    - destruct Hout as (_ & _ & ->). eauto.
    - destruct Hout as [[_ ->] | (_ & _ & ->)]; eauto. }
  assert (forall w4, (exists tail, calls w4 = calls w3 ++ tail) ->
          exists rest,
            calls w4 = calls w ++ MessagesCreate thread_id (lit "user") content :: rest)
    as Hextends.
  { intros w4 [tail ->]. rewrite Hc3, Hc2.
    exists (RunsCreate thread_id agent_id :: more ++ tail).
    by rewrite <- !app_assoc. }
  assert (forall w4,
            (exists tail, calls w4 = calls w3 ++ tail) ->
            exists w' rest,
              Some (Ret tt, w4) = Some (@Ret unit tt, w') /\
              calls w' = calls w ++ MessagesCreate thread_id (lit "user") content :: rest)
    as Hdone.
  { intros w4 Htail. destruct (Hextends w4 Htail) as [rest Hrest].
    by exists w4, rest. }
  destruct o as [run|e].
  - unfold try_except.
    destruct (decide (Run.status run = lit "completed")) as [Hc|Hc].
    + rewrite render_run_completed by done. cbv zeta.
      destruct (primary_text project_client thread_id) as [text|].
      * apply Hdone. world_fields. eauto.
      * destruct (messages_list project_client thread_id) as [msgs|e];
          [destruct (fallback_text run msgs) as [text|] |];
          apply Hdone; world_fields; rewrite <- app_assoc; eauto.
    + destruct (decide (Run.status run = lit "failed")) as [Hf|Hf].
      * rewrite render_run_failed by done.
        apply Hdone. world_fields. exists []. by rewrite app_nil_r.
      * rewrite render_run_other by done.
        apply Hdone. world_fields. exists []. by rewrite app_nil_r.
  - apply Hdone. world_fields. exists []. by rewrite app_nil_r.
Qed.

(** The chat-start hook, step by step. *)
Lemma start_steps w :
  start project_client w
  = Some (Ret tt,
          match threads_create project_client with
          | Ok thread_id =>
              mkWorld (<[lit "thread_id" := thread_id]> (user_session w))
                      (sent w ++ [welcome_message]) (step_output w) (now w)
                      (polls w) (calls w ++ [ThreadsCreate])
          | Fails e =>
              notified (connection_error_msg (exn_str e)) (record_call ThreadsCreate w)
          end).
Proof.
  unfold start, try_except, mbind, M_bind, agents_threads_create, remote_call.
  by destruct (threads_create project_client).
Qed.

(** X12. After a start that obtained a thread, the session holds its
    identifier, whatever it held before, the welcome message has been
    sent, and the next user message is posted to that thread: the first
    remote operation of the handler is the creation of a message with role
    'user' and the user's text on the thread just created. *)
Theorem start_then_handle_message w (thread_id : pystr) :
  threads_create project_client = Ok thread_id ->
  thread_id <> [] ->
  exists w1,
    start project_client w = Some (Ret tt, w1) /\
    sent w1 = sent w ++ [welcome_message] /\
    user_session w1 !! lit "thread_id" = Some thread_id /\
    forall fuel content,
      (62 <= fuel)%nat ->
      exists w2 rest,
        handle_message project_client agent_id fuel content w1 = Some (Ret tt, w2) /\
        calls w2 = calls w ++ ThreadsCreate
                     :: MessagesCreate thread_id (lit "user") content :: rest.
Proof.
  intros Hcreate Hne. rewrite start_steps, Hcreate.
  remember (mkWorld (<[lit "thread_id" := thread_id]> (user_session w))
                    (sent w ++ [welcome_message]) (step_output w) (now w)
                    (polls w) (calls w ++ [ThreadsCreate])) as w1 eqn:Hw1.
  assert (user_session w1 !! lit "thread_id" = Some thread_id) as Hsession.
  { rewrite Hw1. cbn [user_session]. apply lookup_insert_eq. }
  exists w1. split; [done |]. split; [by rewrite Hw1 |]. split; [done |].
  intros fuel content Hfuel.
  destruct (handle_message_posts_first fuel content w1 thread_id Hsession Hne Hfuel)
    as (w2 & rest & Hrun & Hcalls).
  exists w2, rest. split; [exact Hrun |].
  rewrite Hcalls, Hw1. cbn [calls]. by rewrite <- app_assoc.
Qed.

(** Without a thread identifier in the session, any number of user
    messages are each answered with the session-error notice; nothing is
    asked of the remote service and the session store stays as it is. *)
Lemma handle_messages_without_thread fuel contents : forall w,
  truthy (user_session w !! lit "thread_id") = false ->
  exists w',
    handle_messages project_client agent_id fuel contents w = Some (Ret tt, w') /\
    sent w' = sent w ++ repeat session_error_msg (length contents) /\
    calls w' = calls w /\ polls w' = polls w /\
    user_session w' = user_session w.
Proof.
  induction contents as [|content contents IH]; intros w Hnone.
  - exists w. cbn [handle_messages length repeat]. by rewrite app_nil_r.
  - cbn [handle_messages]. unfold mbind, M_bind.
    rewrite handle_message_steps.
    assert (nonempty_text (user_session w !! lit "thread_id") = None) as ->.
    { rewrite nonempty_text_truthy in Hnone.
      by destruct (nonempty_text (user_session w !! lit "thread_id")). }
    destruct (IH (notified session_error_msg w)) as (w' & Hrun & Hsent & Hcalls & Hpolls & Hs);
      [done |].
    exists w'. split; [done |]. revert Hsent Hcalls Hpolls Hs. world_fields.
    intros -> -> -> ->. cbn [length repeat]. by rewrite <- app_assoc.
Qed.

(** X13. After a start that obtained no usable thread, every user message
    that follows, however many, is answered with the session-error notice
    and nothing is asked of the remote service. This is so when the
    creation of the thread fails, the start having shown the
    connection-error notice with the description of the exception, and
    also when the service answers an empty identifier, although the start
    has then shown the welcome message. *)
Theorem failed_start_then_handle_message w :
  truthy (user_session w !! lit "thread_id") = false ->
  (forall e,
     threads_create project_client = Fails e ->
     exists w1,
       start project_client w = Some (Ret tt, w1) /\
       sent w1 = sent w ++ [connection_error_msg (exn_str e)] /\
       occurs_in (exn_str e) (connection_error_msg (exn_str e)) /\
       forall fuel contents,
         exists w2,
           handle_messages project_client agent_id fuel contents w1 = Some (Ret tt, w2) /\
           sent w2 = sent w ++ connection_error_msg (exn_str e)
                       :: repeat session_error_msg (length contents) /\
           calls w2 = calls w ++ [ThreadsCreate] /\
           polls w2 = polls w) /\
  (threads_create project_client = Ok [] ->
     exists w1,
       start project_client w = Some (Ret tt, w1) /\
       sent w1 = sent w ++ [welcome_message] /\
       forall fuel contents,
         exists w2,
           handle_messages project_client agent_id fuel contents w1 = Some (Ret tt, w2) /\
           sent w2 = sent w ++ welcome_message
                       :: repeat session_error_msg (length contents) /\
           calls w2 = calls w ++ [ThreadsCreate] /\
           polls w2 = polls w).
Proof.
  intros Hnone. split.
  - intros e Hcreate. rewrite start_steps, Hcreate.
    eexists. split; [done |]. world_fields. split; [done |]. split.
    + eapply occurs_in_unlines; [| apply occurs_in_refl].
      unfold connection_error_msg. find_line.
    + intros fuel contents.
      destruct (handle_messages_without_thread fuel contents
                  (notified (connection_error_msg (exn_str e))
                            (record_call ThreadsCreate w)) Hnone)
        as (w2 & Hrun & Hsent & Hcalls & Hpolls & _).
      exists w2. split; [exact Hrun |]. revert Hsent Hcalls Hpolls. world_fields.
      intros -> -> ->. by rewrite <- app_assoc.
  - intros Hcreate. rewrite start_steps, Hcreate.
    eexists. split; [done |]. world_fields. split; [done |].
    intros fuel contents.
    destruct (handle_messages_without_thread fuel contents
                (mkWorld (<[lit "thread_id" := []]> (user_session w))
                         (sent w ++ [welcome_message]) (step_output w) (now w)
                         (polls w) (calls w ++ [ThreadsCreate])))
      as (w2 & Hrun & Hsent & Hcalls & Hpolls & _).
    { cbn [user_session]. by rewrite lookup_insert_eq. }
    exists w2. split; [exact Hrun |]. revert Hsent Hcalls Hpolls. world_fields.
    intros -> -> ->. by rewrite <- app_assoc.
Qed.

Lemma fallback_text_from run msgs text :
  fallback_text run msgs = Some text ->
  exists msg,
    msg ∈ msgs /\ qualifies run msg = true /\
    extract_message_content msg = Ret (Some text) /\ text <> [].
Proof.
  unfold fallback_text. induction msgs as [|m msgs IH]; [done |].
  cbn [List.filter]. destruct (qualifies run m) eqn:Hq.
  - cbn [omap list_omap]. destruct (message_text m) as [t|] eqn:Ht.
    + intros [= ->]. exists m. split; [by left |]. split; [done |].
      unfold message_text in Ht.
      destruct (extract_message_content m) as [[[|c u]|]|]; try done.
      simpl in Ht. by injection Ht as <-.
    + intros (msg & ? & ? & ? & ?)%IH. exists msg. split; [by right | done].
  - intros (msg & ? & ? & ? & ?)%IH. exists msg. split; [by right | done].
Qed.

(** X18. What the fallback sends comes from an assistant message of this
    run: when the convenience call gave no text and the messages are
    listed, the handler sends either the no-response notice or the
    formatted text, not empty, extracted from a listed message whose role
    is 'assistant' and which was created no earlier than the run. The
    text of a user message or of an older message is never sent back. *)
Theorem handle_message_fallback_source fuel content w thread_id run w1 msgs :
  run_returned project_client agent_id fuel content w thread_id run w1 ->
  Run.status run = lit "completed" ->
  primary_text project_client thread_id = None ->
  messages_list project_client thread_id = Ok msgs ->
  exists w',
    handle_message project_client agent_id fuel content w = Some (Ret tt, w') /\
    (sent w' = sent w ++ [no_response_msg] \/
     exists msg text,
       msg ∈ msgs /\
       Message.role msg = lit "assistant" /\
       Message.created_at msg >= Run.created_at run /\
       extract_message_content msg = Ret (Some text) /\ text <> [] /\
       sent w' = sent w ++ [format_agent_response (Some text)]).
Proof.
  intros Hret Hc Hprimary Hlist.
  rewrite (handle_message_returned _ _ _ _ _ _ _ _ Hret).
  unfold try_except. rewrite render_run_completed by done. cbv zeta.
  rewrite Hprimary, Hlist.
  destruct (run_returned_frame _ _ _ _ _ _ _ _ Hret) as (Hsent & _).
  destruct (fallback_text run msgs) as [text|] eqn:Hfb.
  - eexists. split; [done |]. right.
    destruct (fallback_text_from _ _ _ Hfb) as (msg & Hin & Hq & Hx & Hne).
    exists msg, text. world_fields. rewrite Hsent.
    unfold qualifies, str_eqb in Hq.
    apply andb_true_iff in Hq as [Hrole Hat].
    apply bool_decide_eq_true in Hrole.
    split_and!; try done. lia.
  - eexists. split; [done |]. left. world_fields. by rewrite Hsent.
Qed.

(** A sequence of polls that ends with a terminal status makes the poll
    loop of the handler return the run that has it. *)
Lemma run_returned_of_polls fuel content w (thread_id : pystr) created n run :
  user_session w !! lit "thread_id" = Some thread_id ->
  thread_id <> [] ->
  messages_create project_client thread_id (lit "user") content = Ok tt ->
  runs_create project_client thread_id agent_id = Ok created ->
  (n < fuel)%nat ->
  (forall k, (k < n)%nat ->
     pending project_client thread_id (Run.id created) 60 w k) ->
  runs_get project_client (polls w + n) thread_id (Run.id created) = Ok run ->
  is_terminal (Run.status run) = true ->
  exists w1,
    run_returned project_client agent_id fuel content w thread_id run w1 /\
    calls w1 = calls w ++ [MessagesCreate thread_id (lit "user") content;
                           RunsCreate thread_id agent_id]
                       ++ repeat (RunsGet thread_id (Run.id created)) (S n) /\
    polls w1 = (polls w + S n)%nat.
Proof.
  intros Hsession Hne Hmsg Hcreate Hfuel Hpending Hget Hterm.
  pose (w0 := submitted agent_id thread_id content w).
  assert (forall k, (k < n)%nat ->
            pending project_client thread_id (Run.id created) 60 w0 k) as Hpending0
    by exact Hpending.
  pose proof (wait_for_run_completion_decisive project_client thread_id (Run.id created)
                60 n fuel w0 Hfuel Hpending0) as Hwait.
  change (polls w0) with (polls w) in Hwait.
  rewrite Hget, Hterm in Hwait. cbv zeta in Hwait.
  destruct (decisive_poll_world project_client thread_id (Run.id created) n w0)
    as (_ & _ & _ & Hpolls & _ & Hcalls).
  eexists. split; [| split; [| exact Hpolls]].
  - split; [done |]. split; [done |]. split; [done |].
    exists created. split; [done | exact Hwait].
  - rewrite Hcalls. unfold w0. cbn [submitted record_call calls].
    by rewrite <- !app_assoc.
Qed.

(** C1, amended. For every sequence of polls that reaches the status
    'completed', the polls before it having found the run still going, in
    time, the handler raises nothing and sends one message. It is the
    formatted text of the convenience call when that call answers a text
    that is not empty. Otherwise, the call having failed, or answered
    nothing, an empty text, or an object that is no text and on which the
    formatter raises, the thread messages are listed, and the message sent
    is the formatted text of the first assistant message not older than
    the run that has a non-empty extracted text, or the no-response notice
    when there is no such message. *)
Theorem handle_message_completed
    fuel content w (thread_id : pystr) created n run msgs :
  user_session w !! lit "thread_id" = Some thread_id ->
  thread_id <> [] ->
  messages_create project_client thread_id (lit "user") content = Ok tt ->
  runs_create project_client thread_id agent_id = Ok created ->
  (n < fuel)%nat ->
  (forall k, (k < n)%nat ->
     pending project_client thread_id (Run.id created) 60 w k) ->
  runs_get project_client (polls w + n) thread_id (Run.id created) = Ok run ->
  Run.status run = lit "completed" ->
  (primary_text project_client thread_id = None ->
     messages_list project_client thread_id = Ok msgs) ->
  (forall truth,
     messages_get_last_message_text_by_role project_client thread_id (lit "assistant")
       = Ok (AnswerObject truth) ->
     primary_text project_client thread_id = None) /\
  exists w',
    handle_message project_client agent_id fuel content w = Some (Ret tt, w') /\
    sent w' = sent w ++
      [match primary_text project_client thread_id with
       | Some text => format_agent_response (Some text)
       | None =>
           match fallback_text run msgs with
           | Some text => format_agent_response (Some text)
           | None => no_response_msg
           end
       end].
Proof.
  intros Hsession Hne Hmsg Hcreate Hfuel Hpending Hget Hc Hlist.
  split; [intros truth Hobject; unfold primary_text; by rewrite Hobject |].
  destruct (run_returned_of_polls fuel content w thread_id created n run)
    as (w1 & Hret & _); try done.
  { by rewrite Hc. }
  by apply (handle_message_completed_returned _ _ _ _ _ _ _ w1).
Qed.

(** X19. For a sequence of polls that ends with a terminal status, the
    remote operations of [handle_message] are, in this order: the creation
    of the user message on the thread of the session, the creation of a
    run for the configured agent, the polls of the run so created, and,
    for a completed run only, the convenience call and, when that gave no
    text, the listing call. Nothing is cancelled. *)
Theorem handle_message_submits_then_polls
    fuel content w (thread_id : pystr) created n run :
  user_session w !! lit "thread_id" = Some thread_id ->
  thread_id <> [] ->
  messages_create project_client thread_id (lit "user") content = Ok tt ->
  runs_create project_client thread_id agent_id = Ok created ->
  (n < fuel)%nat ->
  (forall k, (k < n)%nat ->
     pending project_client thread_id (Run.id created) 60 w k) ->
  runs_get project_client (polls w + n) thread_id (Run.id created) = Ok run ->
  is_terminal (Run.status run) = true ->
  exists w',
    handle_message project_client agent_id fuel content w = Some (Ret tt, w') /\
    calls w' = calls w
      ++ [MessagesCreate thread_id (lit "user") content; RunsCreate thread_id agent_id]
      ++ repeat (RunsGet thread_id (Run.id created)) (S n)
      ++ (if bool_decide (Run.status run = lit "completed") then
            GetLastMessageTextByRole thread_id (lit "assistant")
            :: match primary_text project_client thread_id with
               | Some _ => []
               | None => [MessagesList thread_id]
               end
          else []) /\
    polls w' = (polls w + S n)%nat.
Proof.
  intros Hsession Hne Hmsg Hcreate Hfuel Hpending Hget Hterm.
  destruct (run_returned_of_polls fuel content w thread_id created n run)
    as (w1 & Hret & Hcalls & Hpolls); try done.
  rewrite (handle_message_returned _ _ _ _ _ _ _ _ Hret).
  rewrite !app_assoc, <- (app_assoc (calls w)), <- Hcalls, <- Hpolls.
  unfold try_except. case_bool_decide as Hc.
  - rewrite render_run_completed by done. cbv zeta.
    destruct (primary_text project_client thread_id) as [text|].
    + eexists. split; [done |]. by world_fields.
    + destruct (messages_list project_client thread_id) as [msgs|e].
      * destruct (fallback_text run msgs) as [text|];
          (eexists; split; [done |]); world_fields; by rewrite <- app_assoc.
      * eexists. split; [done |]. world_fields. by rewrite <- app_assoc.
  - rewrite app_nil_r.
    destruct (decide (Run.status run = lit "failed")) as [Hf|Hf].
    + rewrite render_run_failed by done. eexists. split; [done |]. by world_fields.
    + rewrite render_run_other by done. eexists. split; [done |]. by world_fields.
Qed.

End HandlerPaths.

(** ** The formatter and the extractor, further *)

(** X14. Whatever it is given, [format_agent_response] returns a text that
    begins with the heading marker '#'. *)
Theorem format_agent_response_begins_with_heading_marker (x : option pystr) :
  exists rest, format_agent_response x = lit "#" ++ rest.
Proof.
  apply startswith_true, format_agent_response_starts_with_heading_marker.
Qed.

(** X15. Whitespace around a text does not show in the result: two texts
    with the same stripped text, that text not being empty, are formatted
    alike; in particular a text is formatted like its stripped text. *)
Theorem format_agent_response_ignores_surrounding_whitespace (a b : pystr) :
  strip a = strip b -> strip a <> [] ->
  format_agent_response (Some a) = format_agent_response (Some b) /\
  format_agent_response (Some a) = format_agent_response (Some (strip a)).
Proof.
  assert (forall s, strip s <> [] ->
            format_agent_response (Some s)
            = if startswith (strip s) (lit "#") then strip s
              else agent_response_heading ++ strip s) as Hform.
  { intros s Hs. assert (s <> []) by (by intros ->).
    destruct (startswith (strip s) (lit "#")) eqn:Hh.
    - by apply format_agent_response_headed.
    - by apply format_agent_response_unheaded. }
  intros Hab Ha. split.
  - rewrite !Hform by congruence. by rewrite Hab.
  - rewrite !Hform by (by rewrite ?strip_idem). by rewrite strip_idem.
Qed.

Lemma format_agent_response_ignores_surrounding_whitespace_witness :
  format_agent_response (Some (lit "  Hi there")) = format_agent_response (Some (lit "Hi there ")) /\
  format_agent_response (Some (lit "  Hi there")) = format_agent_response (Some (lit "Hi there")).
Proof.
  apply (format_agent_response_ignores_surrounding_whitespace
           (lit "  Hi there") (lit "Hi there ")).
  - reflexivity.
  - discriminate.
Defined.

Lemma scan_content_some items v :
  scan_content items = Ret (Some v) ->
  exists skipped item rest,
    items = skipped ++ item :: rest /\
    Forall passed_over skipped /\
    text_value item = Ret v.
Proof.
  induction items as [|item items IH]; [done |].
  cbn [scan_content].
  destruct (has_text_value item) eqn:Hv.
  - apply text_value_has in Hv as [u Hu]. rewrite Hu. intros [= <-].
    by exists [], item, items.
  - destruct (is_text_typed item) eqn:Ht.
    + destruct (text_value_lacks item (fun v => Ret (Some v)) Hv) as [e ->]. done.
    + intros (skipped & it & rest & -> & Hskipped & Hit)%IH.
      exists (item :: skipped), it, rest. split; [done |].
      split; [| done]. by constructor.
Qed.

(** X16. A text that [extract_message_content] returns is a text value of
    the message: it is the [text.value] of a content part, and every part
    before that one has no text value and is not typed 'text'. *)
Theorem extract_message_content_returns_part_text (message : Message.t) (v : pystr) :
  extract_message_content message = Ret (Some v) ->
  exists skipped item rest,
    Message.content message = Some (skipped ++ item :: rest) /\
    Forall passed_over skipped /\
    text_value item = Ret v.
Proof.
  unfold extract_message_content, try_except_pure.
  destruct (Message.content message) as [[|item items]|]; try done.
  destruct (scan_content (item :: items)) as [x|e] eqn:Hscan; [| done].
  intros [= ->]. apply scan_content_some in Hscan as (s & i & r & -> & ? & ?).
  by exists s, i, r.
Qed.

Lemma extract_message_content_returns_part_text_witness :
  exists skipped item rest,
    Some [image_part; text_part (lit "Hi there"); broken_text_part]
      = Some (skipped ++ item :: rest) /\
    Forall passed_over skipped /\
    text_value item = Ret (lit "Hi there").
Proof.
  apply (extract_message_content_returns_part_text
           (assistant_message 7 [image_part; text_part (lit "Hi there"); broken_text_part])).
  reflexivity.
Defined.

(** ** Construction of the client *)

(** X17. The client is built with the default credential when that works,
    and with the API key as the credential when the default credential or
    the client built on it fails; only when the attempt with the API key
    fails too is an exception raised, and it is the exception of that
    second attempt which is raised and logged, the first one being lost. *)
Theorem initialize_client_spec {client : Type} (p : platform client)
    (endpoint api_key : pystr) :
  (forall c,
     default_azure_credential p = Ok tt ->
     ai_project_client p endpoint DefaultAzureCredential = Ok c ->
     initialize_client p endpoint api_key = (Ret c, mkConsole [connected_msg] [])) /\
  ((exists e, default_azure_credential p = Fails e) \/
   (exists e, ai_project_client p endpoint DefaultAzureCredential = Fails e) ->
   (forall c,
      ai_project_client p endpoint (APIKeyCredential api_key) = Ok c ->
      initialize_client p endpoint api_key
      = (Ret c, mkConsole [trying_alternative_msg; connected_msg] [])) /\
   (forall e2,
      ai_project_client p endpoint (APIKeyCredential api_key) = Fails e2 ->
      initialize_client p endpoint api_key
      = (Raise e2, mkConsole [trying_alternative_msg] [failed_to_initialize_msg e2]) /\
      occurs_in (exn_str e2) (failed_to_initialize_msg e2))).
Proof.
  unfold initialize_client. split.
  - by intros c -> ->.
  - intros Hfirst.
    assert (exists e, match default_azure_credential p with
                      | Ok _ => ai_project_client p endpoint DefaultAzureCredential
                      | Fails e => Fails e
                      end = Fails e) as [e ->].
    { destruct Hfirst as [[e ->] | [e He]]; [eauto |].
      destruct (default_azure_credential p); eauto. }
    split.
    + by intros c ->.
    + intros e2 ->. split; [done |].
      unfold failed_to_initialize_msg. apply occurs_in_app_r, occurs_in_refl.
Qed.

(** ** Instances *)

Lemma wait_for_run_completion_returns_first_terminal_witness :
  exists w',
    wait_for_run_completion slow_remote 2 (lit "t1") (lit "r1") 60 session_world
      = Some (Ret (sample_run (lit "completed") None), w') /\
    polls w' = (polls session_world + 2)%nat /\
    now w' = now session_world + elapsed_after slow_remote (polls session_world) 1 /\
    calls w' = calls session_world ++ repeat (RunsGet (lit "t1") (lit "r1")) 2.
Proof.
  apply (wait_for_run_completion_returns_first_terminal slow_remote (lit "t1") (lit "r1")
           60 1 2 session_world).
  - lia.
  - intros k Hk. assert (k = 0%nat) as -> by lia.
    exists (sample_run (lit "queued") None).
    split; [reflexivity |]. split; [reflexivity |]. vm_compute. discriminate.
  - reflexivity.
  - reflexivity.
Defined.

Lemma wait_for_run_completion_poll_fails_witness :
  exists w',
    wait_for_run_completion broken_remote 2 (lit "t1") (lit "r1") 60 session_world
      = Some (Raise (RemoteError (lit "connection reset")), w') /\
    polls w' = (polls session_world + 2)%nat /\
    calls w' = calls session_world ++ repeat (RunsGet (lit "t1") (lit "r1")) 2 /\
    cancel_count (calls w') = cancel_count (calls session_world).
Proof.
  apply (wait_for_run_completion_poll_fails broken_remote (lit "t1") (lit "r1")
           60 1 2 session_world).
  - lia.
  - intros k Hk. assert (k = 0%nat) as -> by lia.
    exists (sample_run (lit "queued") None).
    split; [reflexivity |]. split; [reflexivity |]. vm_compute. discriminate.
  - reflexivity.
Defined.

Lemma wait_for_run_completion_times_out_at_witness :
  exists w',
    wait_for_run_completion stuck_remote 2 (lit "t1") (lit "r1") 60 session_world
      = Some (Raise (TimeoutError (timed_out_msg 60)), w') /\
    polls w' = (polls session_world + 2)%nat /\
    now w' = now session_world + elapsed_after stuck_remote (polls session_world) 1 /\
    calls w' = calls session_world ++ repeat (RunsGet (lit "t1") (lit "r1")) 2
                 ++ [RunsCancel (lit "t1") (lit "r1")].
Proof.
  apply (wait_for_run_completion_times_out_at stuck_remote (lit "t1") (lit "r1")
           60 1 2 session_world (sample_run (lit "in_progress") None)).
  - lia.
  - intros k Hk. assert (k = 0%nat) as -> by lia.
    exists (sample_run (lit "in_progress") None).
    split; [reflexivity |]. split; [reflexivity |]. vm_compute. discriminate.
  - reflexivity.
  - reflexivity.
  - vm_compute. reflexivity.
Defined.

Lemma handle_message_always_answers_witness :
  exists w' m,
    handle_message unreachable_remote (lit "agent-1") 62 (lit "Hello") session_world
      = Some (Ret tt, w') /\
    sent w' = sent session_world ++ [m] /\
    user_session w' = user_session session_world /\
    (cancel_count (calls w') <= S (cancel_count (calls session_world)))%nat.
Proof.
  apply handle_message_always_answers. lia.
Defined.

Lemma handle_message_submission_fails_witness :
  exists w',
    handle_message unreachable_remote (lit "agent-1") 62 (lit "Hello") session_world
      = Some (Ret tt, w') /\
    sent w' = sent session_world ++ [processing_error_msg (lit "unauthorized")] /\
    calls w' = calls session_world ++ [MessagesCreate (lit "t1") (lit "user") (lit "Hello")] /\
    polls w' = polls session_world.
Proof.
  destruct (handle_message_submission_fails unreachable_remote (lit "agent-1") 62
              (lit "Hello") session_world (lit "t1")) as [H _].
  - reflexivity.
  - discriminate.
  - apply (H (RemoteError (lit "unauthorized"))). reflexivity.
Defined.

Lemma handle_message_loop_raises_witness :
  exists w1 w',
    wait_for_run_completion broken_remote 62 (lit "t1") (lit "r1") 60
      (submitted (lit "agent-1") (lit "t1") (lit "Hello") session_world)
      = Some (Raise (RemoteError (lit "connection reset")), w1) /\
    handle_message broken_remote (lit "agent-1") 62 (lit "Hello") session_world
      = Some (Ret tt, w') /\
    sent w' = sent session_world ++ [processing_error_msg (lit "connection reset")] /\
    calls w' = calls w1.
Proof.
  eexists.
  edestruct (handle_message_loop_raises broken_remote (lit "agent-1") 62 (lit "Hello")
               session_world (lit "t1") (sample_run (lit "queued") None)
               (RemoteError (lit "connection reset")))
    as (w' & Hrun & Hsent & _ & Hcalls).
  - reflexivity.
  - discriminate.
  - reflexivity.
  - reflexivity.
  - vm_compute. reflexivity.
  - exists w'. split; [reflexivity |]. split; [exact Hrun |].
    split; [exact Hsent | exact Hcalls].
Defined.

Lemma handle_message_times_out_witness :
  exists w',
    handle_message stuck_remote (lit "agent-1") 62 (lit "Hello") session_world
      = Some (Ret tt, w') /\
    sent w' = sent session_world ++
      [processing_error_msg (lit "Agent response timed out after 60 seconds")] /\
    cancel_count (calls w') = S (cancel_count (calls session_world)).
Proof.
  apply (handle_message_times_out stuck_remote (lit "agent-1") 62 (lit "Hello")
           session_world (lit "t1") (sample_run (lit "queued") None)).
  - reflexivity.
  - discriminate.
  - reflexivity.
  - reflexivity.
  - intros k _. eexists. split; reflexivity.
  - lia.
Defined.

Lemma handle_message_fetches_witness :
  let project_client :=
    answering_remote (Ok (AnswerObject true))
                     [assistant_message 100 [text_part (lit "Hi there")]] in
  exists w1 w',
    run_returned project_client (lit "agent-1") 62 (lit "Hello") session_world (lit "t1")
      (sample_run (lit "completed") None) w1 /\
    handle_message project_client (lit "agent-1") 62 (lit "Hello") session_world
      = Some (Ret tt, w') /\
    calls w' = calls w1 ++ [GetLastMessageTextByRole (lit "t1") (lit "assistant");
                            MessagesList (lit "t1")] /\
    polls w' = polls w1.
Proof.
  cbv zeta. eexists.
  edestruct (handle_message_fetches
               (answering_remote (Ok (AnswerObject true))
                  [assistant_message 100 [text_part (lit "Hi there")]])
               (lit "agent-1") 62 (lit "Hello")
               session_world (lit "t1") (sample_run (lit "completed") None))
    as (w' & Hrun & Hcalls & Hpolls).
  - split; [reflexivity |]. split; [discriminate |]. split; [reflexivity |].
    eexists. split; [reflexivity |]. vm_compute. reflexivity.
  - exists w'. split.
    + split; [reflexivity |]. split; [discriminate |]. split; [reflexivity |].
      eexists. split; [reflexivity |]. vm_compute. reflexivity.
    + split; [exact Hrun |]. split; [exact Hcalls | exact Hpolls].
Defined.

Lemma handle_message_whitespace_message_witness :
  let project_client :=
    answering_remote (Ok AnswerNone)
                     [Message.mk (lit "user") 101 (Some [text_part (lit "Hello")]);
                      assistant_message 101 [text_part (lit "  ")];
                      assistant_message 100 [text_part (lit "Hi there")]] in
  exists w',
    handle_message project_client (lit "agent-1") 62 (lit "Hello") session_world
      = Some (Ret tt, w') /\
    sent w' = sent session_world ++ [agent_response_heading].
Proof.
  cbv zeta.
  eapply (handle_message_whitespace_message _ (lit "agent-1") 62 (lit "Hello")
            session_world (lit "t1") (sample_run (lit "completed") None) _
            [Message.mk (lit "user") 101 (Some [text_part (lit "Hello")])]
            (assistant_message 101 [text_part (lit "  ")])
            [assistant_message 100 [text_part (lit "Hi there")]]
            (lit "  ")).
  - split; [reflexivity |]. split; [discriminate |]. split; [reflexivity |].
    eexists. split; [reflexivity |]. vm_compute. reflexivity.
  - reflexivity.
  - reflexivity.
  - reflexivity.
  - constructor; [| constructor]. left. reflexivity.
  - reflexivity.
  - reflexivity.
  - discriminate.
  - reflexivity.
Defined.

Lemma start_then_handle_message_witness :
  exists w1,
    start slow_remote fresh_world = Some (Ret tt, w1) /\
    sent w1 = sent fresh_world ++ [welcome_message] /\
    user_session w1 !! lit "thread_id" = Some (lit "t1") /\
    forall fuel content,
      (62 <= fuel)%nat ->
      exists w2 rest,
        handle_message slow_remote (lit "agent-1") fuel content w1 = Some (Ret tt, w2) /\
        calls w2 = calls fresh_world ++ ThreadsCreate
                     :: MessagesCreate (lit "t1") (lit "user") content :: rest.
Proof.
  apply start_then_handle_message.
  - reflexivity.
  - discriminate.
Defined.

Lemma failed_start_then_handle_message_witness :
  exists w1,
    start unreachable_remote fresh_world = Some (Ret tt, w1) /\
    sent w1 = sent fresh_world ++ [connection_error_msg (lit "unauthorized")] /\
    forall fuel contents,
      exists w2,
        handle_messages unreachable_remote (lit "agent-1") fuel contents w1
          = Some (Ret tt, w2) /\
        sent w2 = sent fresh_world
                    ++ connection_error_msg (lit "unauthorized")
                    :: repeat session_error_msg (length contents) /\
        calls w2 = calls fresh_world ++ [ThreadsCreate] /\
        polls w2 = polls fresh_world.
Proof.
  destruct (failed_start_then_handle_message unreachable_remote (lit "agent-1") fresh_world)
    as [H _].
  - reflexivity.
  - destruct (H (RemoteError (lit "unauthorized")) eq_refl) as (w1 & Hstart & Hsent & _ & Hnext).
    exists w1. split; [exact Hstart |]. split; [exact Hsent | exact Hnext].
Defined.

Lemma initialize_client_spec_witness :
  initialize_client key_only_platform (lit "https://foundry.example") (lit "key")
  = (Ret (APIKeyCredential (lit "key")),
     mkConsole [trying_alternative_msg; connected_msg] []).
Proof.
  destruct (initialize_client_spec key_only_platform (lit "https://foundry.example")
              (lit "key")) as [_ H].
  destruct H as [H _].
  - left. eexists. reflexivity.
  - apply H. reflexivity.
Defined.

Lemma handle_message_fallback_source_witness :
  let run := sample_run (lit "completed") None in
  let msgs := [Message.mk (lit "user") 101 (Some [text_part (lit "Hello")]);
               assistant_message 99 [text_part (lit "earlier")];
               assistant_message 100 [text_part (lit "Hi there")]] in
  let project_client := sample_remote [lit "queued"] run (Ok tt) (Ok None) (Ok msgs) in
  exists w',
    handle_message project_client (lit "agent-1") 62 (lit "Hello") session_world
      = Some (Ret tt, w') /\
    (sent w' = sent session_world ++ [no_response_msg] \/
     exists msg text,
       msg ∈ msgs /\
       Message.role msg = lit "assistant" /\
       Message.created_at msg >= Run.created_at run /\
       extract_message_content msg = Ret (Some text) /\ text <> [] /\
       sent w' = sent session_world ++ [format_agent_response (Some text)]).
Proof.
  cbv zeta.
  eapply (handle_message_fallback_source _ _ 62 (lit "Hello") session_world (lit "t1")).
  - split; [reflexivity |]. split; [discriminate |]. split; [reflexivity |].
    eexists. split; [reflexivity |]. vm_compute. reflexivity.
  - reflexivity.
  - reflexivity.
  - reflexivity.
Defined.

Lemma handle_message_submits_then_polls_witness :
  exists w',
    handle_message slow_remote (lit "agent-1") 62 (lit "Hello") session_world
      = Some (Ret tt, w') /\
    calls w' = calls session_world
      ++ [MessagesCreate (lit "t1") (lit "user") (lit "Hello");
          RunsCreate (lit "t1") (lit "agent-1")]
      ++ repeat (RunsGet (lit "t1") (lit "r1")) 2
      ++ [GetLastMessageTextByRole (lit "t1") (lit "assistant")] /\
    polls w' = (polls session_world + 2)%nat.
Proof.
  apply (handle_message_submits_then_polls slow_remote (lit "agent-1") 62 (lit "Hello")
           session_world (lit "t1") (sample_run (lit "queued") None) 1
           (sample_run (lit "completed") None)).
  - reflexivity.
  - discriminate.
  - reflexivity.
  - reflexivity.
  - lia.
  - intros k Hk. assert (k = 0%nat) as -> by lia.
    exists (sample_run (lit "queued") None).
    split; [reflexivity |]. split; [reflexivity |]. vm_compute. discriminate.
  - reflexivity.
  - reflexivity.
Defined.

(** C3, as the design document has it, fails when the run finishes just
    after the limit: with the limit of 60, every poll made at the times 0
    to 60 finds the run in progress, so no terminal status is reached
    before the limit has elapsed; the poll made at time 61 finds it
    completed, and the run is returned: no timeout is raised and nothing
    is cancelled. *)
Lemma wait_for_run_completion_returns_after_limit :
  (forall k, (k <= 60)%nat ->
     runs_get late_remote k (lit "t1") (lit "r1")
       = Ok (sample_run (lit "in_progress") None)) /\
  is_terminal (lit "in_progress") = false /\
  exists w',
    wait_for_run_completion late_remote 62 (lit "t1") (lit "r1") 60 session_world
      = Some (Ret (sample_run (lit "completed") None), w') /\
    now w' = 61 /\ polls w' = 62%nat /\ cancel_count (calls w') = 0%nat.
Proof.
  split; [| split; [reflexivity |]].
  - intros k Hk. unfold late_remote, sample_remote. cbn [runs_get].
    by rewrite lookup_replicate_2 by lia.
  - eexists. split; [vm_compute; reflexivity |]. by vm_compute.
Qed.

Lemma wait_for_run_completion_timeout_witness :
  exists w',
    wait_for_run_completion stuck_remote 2 (lit "t1") (lit "r1") 60 session_world
      = Some (Raise (TimeoutError (timed_out_msg 60)), w') /\
    calls w' = calls session_world ++ repeat (RunsGet (lit "t1") (lit "r1")) 2
                 ++ [RunsCancel (lit "t1") (lit "r1")] /\
    cancel_count (calls w') = S (cancel_count (calls session_world)).
Proof.
  destruct (wait_for_run_completion_timeout stuck_remote (lit "t1") (lit "r1")
              60 1 2 session_world (sample_run (lit "in_progress") None))
    as [H _].
  - lia.
  - intros k Hk. assert (k = 0%nat) as -> by lia.
    exists (sample_run (lit "in_progress") None).
    split; [reflexivity |]. split; [reflexivity |]. vm_compute. discriminate.
  - reflexivity.
  - vm_compute. reflexivity.
  - apply H. reflexivity.
Defined.

Lemma handle_message_completed_witness :
  let run := sample_run (lit "completed") None in
  let msgs := [assistant_message 99 [text_part (lit "earlier")];
               assistant_message 101 [image_part];
               assistant_message 100 [text_part (lit "Hi there")]] in
  let project_client := answering_remote (Ok (AnswerObject true)) msgs in
  primary_text project_client (lit "t1") = None /\
  exists w',
    handle_message project_client (lit "agent-1") 62 (lit "Hello") session_world
      = Some (Ret tt, w') /\
    sent w' = sent session_world ++
      [match primary_text project_client (lit "t1") with
       | Some text => format_agent_response (Some text)
       | None =>
           match fallback_text run msgs with
           | Some text => format_agent_response (Some text)
           | None => no_response_msg
           end
       end].
Proof.
  cbv zeta.
  destruct (handle_message_completed
              (answering_remote (Ok (AnswerObject true))
                 [assistant_message 99 [text_part (lit "earlier")];
                  assistant_message 101 [image_part];
                  assistant_message 100 [text_part (lit "Hi there")]])
              (lit "agent-1") 62 (lit "Hello") session_world (lit "t1")
              (sample_run (lit "queued") None) 1 (sample_run (lit "completed") None)
              [assistant_message 99 [text_part (lit "earlier")];
               assistant_message 101 [image_part];
               assistant_message 100 [text_part (lit "Hi there")]])
    as [Hobject Hsent].
  - reflexivity.
  - discriminate.
  - reflexivity.
  - reflexivity.
  - lia.
  - intros k Hk. assert (k = 0%nat) as -> by lia.
    exists (sample_run (lit "queued") None).
    split; [reflexivity |]. split; [reflexivity |]. vm_compute. discriminate.
  - reflexivity.
  - reflexivity.
  - reflexivity.
  - split; [apply (Hobject true); reflexivity | exact Hsent].
Defined.
